(** * epaper-metar: the layout selector and the wind layout

    A shallow embedding of [metar_layouts.py] (the selector routines
    [cycle_layout] and [random_layout], and the drawing routine
    [layout_wind]) and of the sleep policy of the polling loop of
    [metar_main.py], with the properties the specification states
    about them.

    Conventions of the embedding.
    - A Python [int] is a [Z]; [//] and [%] with a positive right operand
      are [Z.div] and [Z.modulo].
    - A Python [str] is a [string] of ASCII characters.
    - A Python [float] is read as the exact rational it denotes ([Q]);
      the one place where rounding could matter for a stated property,
      the half-widths of the arrow shaft, is replayed on IEEE binary64
      numbers as well (module [Binary64]).
    - The drawing context [draw] is the list of the drawing calls made
      on it, oldest first.
    - [print] is a list of structured events, oldest first. *)

From Stdlib Require Import ZArith QArith Qround Bool List String Ascii Lia.
From Stdlib Require Import DecimalString Sorted.
From Stdlib Require Import Floats.
From Equations Require Import Equations.
Import ListNotations.

Local Open Scope Z_scope.

(** ** Exceptions and outcomes *)

(** The Python exceptions raised by the modelled code. *)
Inductive exn : Type :=
| ValueError
| ZeroDivisionError.

(** How a call ends: it returns, or an exception leaves it. *)
Inductive outcome : Type :=
| Returned
| Raised (e : exn).

(** ** The relative wind angle ([layout_wind], lines 217-220) *)

Module Angle.

(** [while relative_angle_deg > 180: relative_angle_deg -= 360] *)
Equations? wrap_down (r : Z) : Z by wf (Z.to_nat (r - 180)) lt :=
  wrap_down r with Z_gt_le_dec r 180 => {
    | left _ := wrap_down (r - 360);
    | right _ := r }.
Proof. lia. Qed.

(** How far [r] is below the exit of the second loop. *)
Definition below (r : Z) : nat := Z.to_nat (1 - 180 - r).

(** [while relative_angle_deg <= -180: relative_angle_deg += 360] *)
Equations? wrap_up (r : Z) : Z by wf (below r) lt :=
  wrap_up r with Z_le_gt_dec r (- 180) => {
    | left _ := wrap_up (r + 360);
    | right _ := r }.
Proof. unfold below. lia. Qed.

(** [runway_heading = runway_number * 10] *)
Definition runway_heading (runway_number : Z) : Z := runway_number * 10.

(** The value of [relative_angle_deg] after the two loops. *)
Definition relative_angle_deg (wind_direction runway_heading : Z) : Z :=
  wrap_up (wrap_down (wind_direction - runway_heading)).

End Angle.

(** ** The drawing surface *)

(** The four grey levels of the display, [epd.GRAY1] (white) to
    [epd.GRAY4] (black). *)
Inductive shade : Type := GRAY1 | GRAY2 | GRAY3 | GRAY4.

(** The fonts [metar_main.py] loads into [config]. *)
Inductive font : Type :=
| font16 | font16b | font24 | font24b | font36 | font36b | font48 | font48b.

Definition point : Type := (Z * Z)%type.

(** One call on the [ImageDraw] context. *)
Inductive draw_op : Type :=
| Rectangle (x0 y0 x1 y1 : Z) (fill : shade)
| Text (x y : Z) (text : string) (fill : shade) (f : font)
| Polygon (pts : list point) (fill : shade)
| Line (x0 y0 x1 y1 : Z) (fill : shade) (width : Z).

(** What the selector and the layouts print. *)
Inductive printed : Type :=
| PreferredListEmpty                 (* line 52 *)
| PreferredIndexInList (i : Z)       (* line 60 *)
| PreferredIndexOutOfRange (i : Z)   (* line 66 *)
| CycleIndex (i : Z)                 (* line 71 *)
| LayoutListEmpty                    (* line 81 *)
| RandomLayout (name : string)       (* line 85 *)
| MetarInvalid                       (* line 104 *)
| NoRawMetar                         (* line 109 *)
| MetarDecodeError.                  (* line 124 *)

(** What a layout routine writes to: the image behind [draw], and the
    terminal. *)
Record surface : Type := {
  image : list draw_op;
  stdout : list printed
}.

Definition blank : surface := {| image := []; stdout := [] |}.

Definition draw_all (ops : list draw_op) (s : surface) : surface :=
  {| image := image s ++ ops; stdout := stdout s |}.

Definition print (p : printed) (s : surface) : surface :=
  {| image := image s; stdout := stdout s ++ [p] |}.

(** A layout routine applied to every argument but the surface. *)
Record routine : Type := {
  __name__ : string;
  call : surface -> surface * outcome
}.

(** What a call of a routine adds to the image it is given. *)
Definition drawn (r : routine) (s : surface) : list draw_op :=
  skipn (List.length (image s)) (image (fst (call r s))).

Definition is_rectangle (o : draw_op) : bool :=
  match o with Rectangle _ _ _ _ _ => true | _ => false end.

Definition is_text (o : draw_op) : bool :=
  match o with Text _ _ _ _ _ => true | _ => false end.

Definition is_polygon (o : draw_op) : bool :=
  match o with Polygon _ _ => true | _ => false end.

Definition is_line (o : draw_op) : bool :=
  match o with Line _ _ _ _ _ _ => true | _ => false end.

Definition fill_of (o : draw_op) : shade :=
  match o with
  | Rectangle _ _ _ _ fill | Text _ _ _ fill _ | Polygon _ fill | Line _ _ _ _ fill _ => fill
  end.

Definition rectangles (ops : list draw_op) : list draw_op := filter is_rectangle ops.
Definition polygons (ops : list draw_op) : list draw_op := filter is_polygon ops.
Definition lines (ops : list draw_op) : list draw_op := filter is_line ops.

(** ** Strings and numbers of the Python runtime *)

Module Py.

Local Open Scope string_scope.

Definition is_digit (a : ascii) : bool :=
  let n := nat_of_ascii a in (48 <=? n)%nat && (n <=? 57)%nat.

(** The value of a digit. *)
Definition digit_value (a : ascii) : Z := Z.of_nat (nat_of_ascii a) - 48.

Fixpoint all_digits (s : string) : bool :=
  match s with
  | EmptyString => true
  | String a rest => is_digit a && all_digits rest
  end.

(** [s.isdigit()]: at least one character, and only digits. *)
Definition isdigit (s : string) : bool :=
  match s with
  | EmptyString => false
  | String _ _ => all_digits s
  end.

(** The truth value of a string: it is not empty. *)
Definition truthy (s : string) : bool :=
  match s with
  | EmptyString => false
  | String _ _ => true
  end.

(** [int(s)] for a string of digits, read from the left with the value
    of the digits before it in [acc]. *)
Fixpoint int_digits (acc : Z) (s : string) : Z :=
  match s with
  | EmptyString => acc
  | String a rest => int_digits (10 * acc + digit_value a) rest
  end.

(** [str(n)] for an integer. *)
Definition str (n : Z) : string := NilZero.string_of_int (Z.to_int n).

(** [s.zfill(width)] for a string without a sign. *)
Definition zfill (width : nat) (s : string) : string :=
  String.concat "" (List.repeat "0" (width - String.length s)) ++ s.

(** [s[:n]] and [s[a:b]] with [a <= b]. *)
Definition prefix (n : nat) (s : string) : string := substring 0 n s.
Definition slice (a b : nat) (s : string) : string := substring a (b - a) s.

(** [int(x)] for a float: truncation towards zero. *)
Definition int (x : Q) : Z := Z.quot (Qnum x) (Zpos (Qden x)).

(** [round(x)] for a float: the nearest integer, the even one of the
    two at a tie. *)
Definition round (x : Q) : Z :=
  let f := Qfloor x in
  match (x - inject_Z f ?= 1 # 2)%Q with
  | Lt => f
  | Gt => f + 1
  | Eq => if Z.even f then f else f + 1
  end.

End Py.

(** ** The layout selector ([cycle_layout], [random_layout]) *)

Module Selector.

(** The module-level counters [cycle_num] and [pref_cycle], both 0 when
    the module is loaded. *)
Record counters : Type := {
  cycle_num : Z;
  pref_cycle : Z
}.

Definition initial : counters := {| cycle_num := 0; pref_cycle := 0 |}.

(** [int(a)] for a string [a] of one character: the digit's value, or
    [ValueError]. *)
Definition int_of_char (a : ascii) : option Z :=
  if Py.is_digit a then Some (Py.digit_value a) else None.

(** [[int(a) for a in str(preferred_layouts)]]: [None] when some [int(a)]
    raises [ValueError]. *)
Fixpoint p_layouts_lst (preferred_layouts : string) : option (list Z) :=
  match preferred_layouts with
  | EmptyString => Some []
  | String a rest =>
      match int_of_char a with
      | None => None
      | Some d =>
          match p_layouts_lst rest with
          | None => None
          | Some ds => Some (d :: ds)
          end
      end
  end.

(** [l[i]] for an index known to be in range. *)
Definition item {A : Type} (l : list A) (i : Z) : option A :=
  nth_error l (Z.to_nat i).

Definition len {A : Type} (l : list A) : Z := Z.of_nat (List.length l).

(** The preferred branch of [cycle_layout] once the list is parsed and
    not empty (lines 56-67). *)
Definition cycle_preferred (layout_list : list routine) (p : list Z)
    (g : counters) (s : surface) : counters * surface * outcome :=
  let current_pref_index := pref_cycle g mod len p in
  match item p current_pref_index with
  | None => (g, s, Returned) (* not reached: the index is in range *)
  | Some layout_index_to_use =>
      if (0 <=? layout_index_to_use) && (layout_index_to_use <? len layout_list)
      then
        match item layout_list layout_index_to_use with
        | None => (g, s, Returned) (* not reached *)
        | Some cycle_pick =>
            let s1 := print (PreferredIndexInList layout_index_to_use) s in
            match call cycle_pick s1 with
            | (s2, Returned) =>
                ({| cycle_num := cycle_num g; pref_cycle := pref_cycle g + 1 |},
                 s2, Returned)
            | (s2, Raised e) => (g, s2, Raised e)
            end
        end
      else (g, print (PreferredIndexOutOfRange layout_index_to_use) s, Returned)
  end.

(** The branch of [cycle_layout] that goes through all layouts
    (lines 70-75). *)
Definition cycle_all (layout_list : list routine)
    (g : counters) (s : surface) : counters * surface * outcome :=
  if len layout_list =? 0 then (g, s, Raised ZeroDivisionError)
  else
    let current_cycle_index := cycle_num g mod len layout_list in
    let s1 := print (CycleIndex current_cycle_index) s in
    match item layout_list current_cycle_index with
    | None => (g, s1, Returned) (* not reached: the index is in range *)
    | Some cycle_pick =>
        match call cycle_pick s1 with
        | (s2, Returned) =>
            ({| cycle_num := cycle_num g + 1; pref_cycle := pref_cycle g |},
             s2, Returned)
        | (s2, Raised e) => (g, s2, Raised e)
        end
    end.

Definition cycle_layout (layout_list : list routine)
    (preferred_layouts : string) (use_preferred : Z)
    (g : counters) (s : surface) : counters * surface * outcome :=
  if use_preferred =? 1 then
    match p_layouts_lst preferred_layouts with
    | None => (g, s, Raised ValueError)
    | Some [] => (g, print PreferredListEmpty s, Returned)
    | Some p => cycle_preferred layout_list p g s
    end
  else cycle_all layout_list g s.

(** [random_layout]; [pick] stands for the draw of [random.choice], a
    position in the list. *)
Definition random_layout (pick : nat) (layout_list : list routine)
    (s : surface) : surface * outcome :=
  match layout_list with
  | [] => (print LayoutListEmpty s, Returned)
  | _ :: _ =>
      match nth_error layout_list pick with
      | None => (s, Returned) (* not reached: [pick] is a position *)
      | Some rand_pick => call rand_pick (print (RandomLayout (__name__ rand_pick)) s)
      end
  end.

End Selector.

(** ** The wind layout ([layout_wind]) *)

Module Wind.

Local Open Scope string_scope.
Local Open Scope list_scope.

(** *** The report, as the routines of [metar_routines.py] hand it over *)

(** Modelled from the spec: [metar_routines.py] ([get_rawOb],
    [decode_rawmessage], [flight_category], [get_wxstring], [get_clouds],
    [get_visib], [get_temp]) is not part of the sources at hand.  The
    values these routines hand to [layout_wind] follow the record
    WeatherReport of the specification: texts for the airport, the wind
    direction and speed, the flight category, the weather, the visibility
    and the temperature, and the cloud layers as an ordered sequence of
    type and height (so the two lists of [get_clouds] have one length).
    Numbers appear through their [str()]. *)
Record decoded : Type := {
  decoded_airport : string;
  decoded_wndir : string;
  decoded_wnspd : string;
  flight_category : string;
  get_wxstring : string;
  get_clouds : list (string * string);
  cloud_unit : string;
  get_visib : string * string;
  get_temp : string * string
}.

(** The four ways the [try] block of lines 101-127 can go. *)
Inductive metar : Type :=
| Invalid                (* [not metar or not hasattr(metar, 'data') or not metar.data] *)
| NoRawText              (* [get_rawOb(metar)] is empty or ['n/a'] *)
| Decodes (d : decoded)  (* every routine returns *)
| DecodeRaises.          (* a routine raises: the [except] branch *)

(** The local variables of [layout_wind] after the [try] block. *)
Record fields : Type := {
  flightcategory : string;
  airport : string;
  wndir : string;
  wnspd : string;
  descript : string;
  cloud_layers : list (string * string);
  dis_unit : string;
  vis : string;
  vis_unit : string;
  tempf : string;
  temp_unit : string
}.

(** The values of lines 110-112 and of lines 125-126, which differ in
    the airport and the weather text only. *)
Definition fallback (airport descript : string) : fields :=
  {| flightcategory := "N/A"; airport := airport;
     wndir := "0"; wnspd := "0"; descript := descript;
     cloud_layers := []; dis_unit := "";
     vis := "N/A"; vis_unit := ""; tempf := "N/A"; temp_unit := "" |}.

Definition of_decoded (d : decoded) : fields :=
  {| flightcategory := flight_category d;
     airport := if Py.truthy (decoded_airport d) then decoded_airport d else "N/A";
     wndir := decoded_wndir d; wnspd := decoded_wnspd d;
     descript := get_wxstring d;
     cloud_layers := get_clouds d; dis_unit := cloud_unit d;
     vis := fst (get_visib d); vis_unit := snd (get_visib d);
     tempf := fst (get_temp d); temp_unit := snd (get_temp d) |}.

(** Lines 101-127: what is printed and drawn, and the fields, or [None]
    when the routine returns at line 106. *)
Definition read_metar (m : metar) (s : surface) : surface * option fields :=
  match m with
  | Invalid =>
      (draw_all [Text 10 100 "Error: Invalid METAR data" GRAY4 font24]
         (print MetarInvalid s), None)
  | NoRawText =>
      (draw_all [Text 10 100 "No METAR text" GRAY4 font24]
         (print NoRawMetar s), Some (fallback "N/A" "N/A"))
  | Decodes d => (s, Some (of_decoded d))
  | DecodeRaises =>
      (draw_all [Text 10 100 "Error: Decode Fail" GRAY4 font24]
         (print MetarDecodeError s), Some (fallback "Error" "Error"))
  end.

(** The fields alone, and the message drawn on the way, which do not
    depend on the surface. *)
Definition report (m : metar) : option fields := snd (read_metar m blank).
Definition notice (m : metar) : list draw_op := image (fst (read_metar m blank)).

(** *** Constants (lines 130-140) *)

Definition runway_number : Z := 18.
Definition HEADER_HEIGHT : Z := 65.
Definition WIND_INFO_Y : Z := 85.
Definition VISUALIZATION_Y : Z := 170.
Definition LEFT_MARGIN : Z := 10.
Definition white : shade := GRAY1.
Definition light_gray : shade := GRAY2.
Definition dark_gray : shade := GRAY3.
Definition black : shade := GRAY4.

(** *** The arrow shaft (lines 227-245) *)

Definition arrow_length : Z := 35.
Definition arrow_head_length : Z := 18.
Definition shaft_len : Z := arrow_length - arrow_head_length.
Definition arrow_shaft_width_near : Z := 14.
Definition arrow_head_width : Z := 25.

(** Lines 235-238. *)
Definition runway_taper_ratio (runway_width_near runway_width_far : Z) : Q :=
  if negb (runway_width_near =? 0)%Z
  then inject_Z runway_width_far / inject_Z runway_width_near
  else 1.

Definition arrow_shaft_width_far (runway_width_near runway_width_far : Z) : Q :=
  inject_Z arrow_shaft_width_near * runway_taper_ratio runway_width_near runway_width_far.

Definition near_half_w : Q := inject_Z arrow_shaft_width_near / 2.

Definition far_half_w (runway_width_near runway_width_far : Z) : Q :=
  arrow_shaft_width_far runway_width_near runway_width_far / 2.

(** *** The runway marks (lines 296-301 and 321-325) *)

Definition dash_length : Z := 6.
Definition gap_length : Z := 4.

(** The loop of lines 299-301, entered with [current_y]. *)
Equations? dashes (centerX y_start y_end current_y : Z) : list draw_op
    by wf (Z.to_nat (y_start + 16 - current_y)) lt :=
  dashes centerX y_start y_end current_y with Z_lt_ge_dec current_y (y_start + 16) => {
    | left _ :=
        Line centerX current_y centerX (Z.min (current_y + dash_length) y_end) white 2
        :: dashes centerX y_start y_end (current_y + dash_length + gap_length);
    | right _ := [] }.
Proof. unfold dash_length, gap_length. lia. Qed.

Definition threshold_offsets : list Z := [-25; -18; -11; -4; 4; 11; 18; 25]%Z.

(** The loop of lines 324-325. *)
Definition threshold_marks (centerX marker_y1 marker_y2 : Z) : list draw_op :=
  map (fun x_offset =>
         Line (centerX + x_offset) marker_y1 (centerX + x_offset) marker_y2 white 1)
      threshold_offsets.

(** *** The routine *)

Section Layout.

Local Open Scope Z_scope.

(** The services of the libraries [layout_wind] calls. *)

(** [draw.textbbox((0,0), text, font=f)] read as width and height
    (or [draw.textsize] where the first is missing). *)
Variable textsize : string -> font -> Z * Z.

(** [float(s)]: the number read, or [None] for [ValueError]. *)
Variable float : string -> option Q.

(** [math.cos(math.radians(d))] and [math.sin(math.radians(d))]. *)
Variables cos_deg sin_deg : Z -> Q.

(** The text [last_update()] returns. *)
Variable update_text : string.

(** [epd.width] and [epd.height]. *)
Variables SCREEN_WIDTH SCREEN_HEIGHT : Z.

Variable wind_speed_units : Z.

(** Lines 147-155: the flight category badge. *)
Definition badge (flightcategory : string) : list draw_op :=
  let fc_x := SCREEN_WIDTH - 75 in
  let fc_y := 15 in
  let fc_font := font24b in
  if Py.truthy flightcategory && negb (flightcategory =? "N/A")%string then
    let '(fc_w, fc_h) := textsize flightcategory fc_font in
    if (flightcategory =? "VFR")%string || (flightcategory =? "MVFR")%string
    then [Text fc_x fc_y flightcategory white fc_font]
    else
      let box_margin := 5 in
      [Rectangle (fc_x - box_margin) (fc_y - box_margin)
         (fc_x + fc_w + box_margin) (fc_y + fc_h + box_margin) white;
       Text fc_x fc_y flightcategory black fc_font]
  else [Text fc_x fc_y "N/A" white fc_font].

(** Lines 144-155. *)
Definition header (v : fields) : list draw_op :=
  Rectangle 0 0 SCREEN_WIDTH HEADER_HEIGHT black
  :: Text LEFT_MARGIN 10 (Py.prefix 10 (airport v)) white font48b
  :: badge (flightcategory v).

(** Lines 158-159. *)
Definition wind_direction (decoded_wndir : string) : Z :=
  if Py.truthy decoded_wndir && Py.isdigit decoded_wndir
  then Py.int_digits 0 decoded_wndir
  else 0.

(** Lines 160-161. *)
Definition wind_speed (decoded_wnspd : string) : Q :=
  if Py.truthy decoded_wnspd && negb (decoded_wnspd =? "Calm")%string
  then match float decoded_wnspd with
       | Some x => x
       | None => 0
       end
  else 0.

(** Lines 162-164. *)
Definition ws_unit_label : string :=
  if wind_speed_units =? 1 then "mph"
  else if wind_speed_units =? 2 then "kts"
  else "kts".

(** Lines 165-166. *)
Definition wind_info (v : fields) : list draw_op :=
  let wind_text :=
    ("Wind: " ++ Py.zfill 3 (Py.str (wind_direction (wndir v))) ++ "° at "
       ++ Py.str (Py.round (wind_speed (wnspd v))) ++ " " ++ ws_unit_label)%string in
  [Text LEFT_MARGIN WIND_INFO_Y wind_text black font24b].

(** Lines 184-188, from layer [i] on. *)
Fixpoint cloud_lines (left_x y_pos : Z) (unit : string) (i : Z)
    (layers : list (string * string)) : list draw_op :=
  match layers with
  | [] => []
  | (cctype, ccheight) :: rest =>
      let height_str := if Py.isdigit ccheight then ccheight else "N/A" in
      Text (left_x + 5) (y_pos + 20 + i * 20)
        (cctype ++ " " ++ height_str ++ unit)%string black font16
      :: cloud_lines left_x y_pos unit (i + 1) rest
  end.

(** Lines 169-196. *)
Definition left_column (v : fields) : list draw_op :=
  let left_x := LEFT_MARGIN in
  let y_pos := 125 in
  let spacing := 55 in
  let max_wx_len := 25%nat in
  (Text left_x y_pos "Weather:" black font16b
   :: Text (left_x + 5) (y_pos + 20) (Py.prefix max_wx_len (descript v)) black font16
   :: (if (max_wx_len <? String.length (descript v))%nat
       then [Text (left_x + 5) (y_pos + 40)
               (Py.slice max_wx_len (max_wx_len * 2) (descript v)) black font16]
       else []))
  ++ (let y_pos := y_pos + spacing in
      Text left_x y_pos "Clouds:" black font16b
      :: match cloud_layers v with
         | [] => [Text (left_x + 5) (y_pos + 20) "Clear" black font16]
         | _ :: _ => cloud_lines left_x y_pos (dis_unit v) 0 (firstn 2 (cloud_layers v))
         end)
  ++ (let y_pos := y_pos + spacing + spacing in
      [Text left_x y_pos "Visibility:" black font16b;
       Text (left_x + 5) (y_pos + 20) (vis v ++ vis_unit v)%string black font16]).

(** Lines 199-203. *)
Definition right_column (v : fields) : list draw_op :=
  let right_x := SCREEN_WIDTH - 100 in
  let y_pos := 125 in
  [Text right_x y_pos "Temp:" black font16b;
   Text (right_x + 5) (y_pos + 20) (tempf v ++ temp_unit v)%string black font16].

Definition centerX : Z := SCREEN_WIDTH / 2.
Definition centerY : Z := VISUALIZATION_Y.

(** Lines 266-268, for the angle [deg] and the centre of the arrow. *)
Definition rotate (deg arrow_center_x arrow_center_y : Z) (p : Q * Q) : point :=
  let '(x, y) := p in
  let cos_a := cos_deg deg in
  let sin_a := sin_deg deg in
  let new_x := (x * cos_a - y * sin_a)%Q in
  let new_y := (x * sin_a + y * cos_a)%Q in
  (Py.int (inject_Z arrow_center_x + new_x), Py.int (inject_Z arrow_center_y + new_y)).

(** Lines 217-286: the two polygons of the arrow. *)
Definition arrow (wind_direction runway_width_near runway_width_far : Z) : list draw_op :=
  let relative_angle_deg :=
    Angle.relative_angle_deg wind_direction (Angle.runway_heading runway_number) in
  let arrow_base_y_offset := -25 in
  let arrow_center_x := centerX in
  let arrow_center_y := centerY + arrow_base_y_offset in
  let far_half_w := far_half_w runway_width_near runway_width_far in
  let shaft_half_l := (inject_Z shaft_len / 2)%Q in
  let rot := rotate relative_angle_deg arrow_center_x arrow_center_y in
  let p1 := ((- far_half_w)%Q, (- shaft_half_l)%Q) in
  let p2 := (far_half_w, (- shaft_half_l)%Q) in
  let p3 := (near_half_w, shaft_half_l) in
  let p4 := ((- near_half_w)%Q, shaft_half_l) in
  let head_base_y := shaft_half_l in
  let head_tip_y := (head_base_y + inject_Z arrow_head_length)%Q in
  let head_half_w := (inject_Z arrow_head_width / 2)%Q in
  let hp1 := (0%Q, head_tip_y) in
  let hp2 := ((- head_half_w)%Q, head_base_y) in
  let hp3 := (head_half_w, head_base_y) in
  [Polygon [rot p1; rot p2; rot p3; rot p4] dark_gray;
   Polygon [rot hp1; rot hp2; rot hp3] dark_gray].

(** Lines 289-295: the runway itself. *)
Definition runway_outline : draw_op :=
  let runway_base_y := centerY + 35 in
  let runway_width_near := 85 in
  let runway_width_far := 50 in
  let runway_length := 55 in
  Polygon [(centerX - runway_width_near / 2, runway_base_y + runway_length / 2);
           (centerX - runway_width_far / 2, runway_base_y - runway_length / 2);
           (centerX + runway_width_far / 2, runway_base_y - runway_length / 2);
           (centerX + runway_width_near / 2, runway_base_y + runway_length / 2)] black.

(** Lines 296-301. *)
Definition centerline : list draw_op :=
  let runway_base_y := centerY + 35 in
  let runway_length := 55 in
  let y_start := runway_base_y - runway_length / 2 + gap_length in
  let y_end := runway_base_y + runway_length / 2 - gap_length in
  dashes centerX y_start y_end y_start.

(** Lines 304-319. *)
Definition runway_label : draw_op :=
  let runway_base_y := centerY + 35 in
  let runway_length := 55 in
  let runway_text := Py.zfill 2 (Py.str runway_number) in
  let rn_font := font36b in
  let '(rn_w, rn_h) := textsize runway_text rn_font in
  let rn_x_orig := centerX - rn_w / 2 in
  let rn_y_orig := runway_base_y + runway_length / 2 - rn_h - 6 in
  Text rn_x_orig (rn_y_orig - 13) runway_text white rn_font.

(** Lines 322-325. *)
Definition threshold : list draw_op :=
  let runway_base_y := centerY + 35 in
  let runway_length := 55 in
  threshold_marks centerX (runway_base_y + runway_length / 2 - 5)
    (runway_base_y + runway_length / 2).

(** Lines 289-325. *)
Definition runway : list draw_op :=
  runway_outline :: centerline ++ runway_label :: threshold.

(** Lines 206-325; the widths of lines 211-212 go to the arrow. *)
Definition visualization (v : fields) : list draw_op :=
  let runway_width_near := 85 in
  let runway_width_far := 50 in
  (if Qlt_le_dec 0 (wind_speed (wnspd v))
   then arrow (wind_direction (wndir v)) runway_width_near runway_width_far
   else [])
  ++ runway.

(** Lines 328-331. *)
Definition footer : list draw_op :=
  let '(up_w, up_h) := textsize update_text font16 in
  [Text LEFT_MARGIN (SCREEN_HEIGHT - up_h - 5) update_text black font16].

(** Everything drawn from line 144 on. *)
Definition panels (v : fields) : list draw_op :=
  header v ++ wind_info v ++ left_column v ++ right_column v
  ++ visualization v ++ footer.

Definition layout_wind_body (m : metar) (s : surface) : surface * outcome :=
  match read_metar m s with
  | (s1, None) => (s1, Returned)
  | (s1, Some v) => (draw_all (panels v) s1, Returned)
  end.

Definition layout_wind (m : metar) : routine :=
  {| __name__ := "layout_wind"; call := layout_wind_body m |}.

End Layout.

End Wind.

(** ** The shaft on binary64 numbers *)

(** The half-widths of lines 232-245 on IEEE binary64 numbers, the
    floats of Python, for runway widths that a float holds exactly
    (below 2^53 in absolute value, where [a / b] on two integers is the
    quotient of the two floats). *)
Module Binary64.

Local Open Scope float_scope.

Definition of_int (n : Z) : float :=
  if (n <? 0)%Z then - of_uint63 (Uint63.of_Z (- n)) else of_uint63 (Uint63.of_Z n).

Definition runway_taper_ratio (runway_width_near runway_width_far : Z) : float :=
  if negb (runway_width_near =? 0)%Z
  then of_int runway_width_far / of_int runway_width_near
  else 1.

Definition arrow_shaft_width_far (runway_width_near runway_width_far : Z) : float :=
  of_int Wind.arrow_shaft_width_near * runway_taper_ratio runway_width_near runway_width_far.

Definition near_half_w : float := of_int Wind.arrow_shaft_width_near / 2.

Definition far_half_w (runway_width_near runway_width_far : Z) : float :=
  arrow_shaft_width_far runway_width_near runway_width_far / 2.

End Binary64.

(** ** Repeated calls of the selector *)

Module Cycles.
Import Selector.

(** The counters after [n] calls of [cycle_layout], started from [g0];
    the polling loop hands [fresh i], a new image, to call [i], and goes
    on after a call that raised. *)
Fixpoint counters_after (layout_list : list routine) (preferred_layouts : string)
    (use_preferred : Z) (fresh : nat -> surface) (g0 : counters) (n : nat) : counters :=
  match n with
  | O => g0
  | S k =>
      let g := counters_after layout_list preferred_layouts use_preferred fresh g0 k in
      fst (fst (cycle_layout layout_list preferred_layouts use_preferred g (fresh k)))
  end.

(** Call [k], counted from 0, of a run started from [g0]. *)
Definition kth_call (layout_list : list routine) (preferred_layouts : string)
    (use_preferred : Z) (fresh : nat -> surface) (g0 : counters) (k : nat)
    : counters * surface * outcome :=
  cycle_layout layout_list preferred_layouts use_preferred
    (counters_after layout_list preferred_layouts use_preferred fresh g0 k) (fresh k).

(** A routine that returns whatever it is given to draw on. *)
Definition returns (r : routine) : Prop :=
  forall s : surface, snd (call r s) = Returned.

End Cycles.

(** ** The sleep policy of the polling loop ([metar_main.py], lines 232-251) *)

Module Main.

Local Open Scope string_scope.

Definition sleep_interval (interval : Z) (flightcategory : string) : Z :=
  if negb (interval =? 0)%Z then interval
  else if flightcategory =? "VFR" then 3600
  else if flightcategory =? "MVFR" then 1800
  else if flightcategory =? "IFR" then 1200
  else if flightcategory =? "LIFR" then 600
  else 1800.

End Main.

(** ** Stand-ins for the library services *)

(** Concrete services to run the layout on: a fixed-pitch font, [float]
    on plain digit strings, and the cosine and sine of the multiples of
    a quarter turn (zero elsewhere, where they are not used). *)
Module Sample.

Definition pitch (f : font) : Z * Z :=
  match f with
  | font16 | font16b => (10, 19)
  | font24 | font24b => (14, 28)
  | font36 | font36b => (22, 42)
  | font48 | font48b => (29, 56)
  end.

Definition textsize (text : string) (f : font) : Z * Z :=
  (Z.of_nat (String.length text) * fst (pitch f), snd (pitch f)).

Definition float (s : string) : option Q :=
  if Py.isdigit s then Some (inject_Z (Py.int_digits 0 s)) else None.

Definition cos_deg (d : Z) : Q :=
  match d mod 360 with
  | 0 => 1
  | 180 => -1
  | _ => 0
  end.

Definition sin_deg (d : Z) : Q :=
  match d mod 360 with
  | 90 => 1
  | 270 => -1
  | _ => 0
  end.

Definition update_text : string := "Last Updated at 12:00 ".

(** [layout_wind] on the 400 by 300 display, wind speed in knots. *)
Definition layout_wind (m : Wind.metar) : routine :=
  Wind.layout_wind textsize float cos_deg sin_deg update_text 400 300 2 m.

(** A report with the variable wind of "VRB05KT". *)
Definition variable_wind : Wind.decoded :=
  {| Wind.decoded_airport := "KSFO";
     Wind.decoded_wndir := "VRB";
     Wind.decoded_wnspd := "5";
     Wind.flight_category := "VFR";
     Wind.get_wxstring := "";
     Wind.get_clouds := [];
     Wind.cloud_unit := "ft";
     Wind.get_visib := ("10"%string, "sm"%string);
     Wind.get_temp := ("59"%string, "F"%string) |}.

(** A routine that only leaves its number on the image. *)
Definition stamp (n : Z) : routine :=
  {| __name__ := "stamp";
     call := fun s => (draw_all [Text 0 0 (Py.str n) GRAY4 font16] s, Returned) |}.

End Sample.

(** ** The utility routines of [metar_layouts.py] (lines 27-35) *)

Module Util.

Local Open Scope string_scope.

(** [center_line_pil]: the x coordinate that centres [text] in [width]. *)
Definition center_line_pil (textsize : string -> font -> Z * Z)
    (width : Z) (text : string) (f : font) : Z :=
  let '(w, h) := textsize text f in
  Py.int (inject_Z (width - w) / 2).

(** [last_update], with [now] for [now.strftime("%H:%M %Z")]. *)
Definition last_update (now : string) : string := "Last Updated at " ++ now.

End Util.

(** ** The start of [metar_main.py]: arguments and [main] *)

Module Program.

Local Open Scope string_scope.
Local Open Scope list_scope.
Local Open Scope Z_scope.

(** What the reading of the arguments can raise. *)
Inductive startup_exn : Type :=
| ArgValueError   (* [int(sys.argv[i])] on a text that is no integer *)
| ArgIndexError.  (* [sys.argv[i]] past the end *)

(** The module-level variables set from the arguments or from
    [metar_settings.py]. *)
Record settings : Type := {
  airport : string;
  use_disp_format : Z;
  interval : Z;
  use_remarks : Z;
  wind_speed_units : Z;
  cloud_layer_units : Z;
  visibility_units : Z;
  temperature_units : Z;
  pressure_units : Z;
  preferred_layouts : string;
  use_preferred : Z
}.

(** [c.upper()] for an ASCII character. *)
Definition upper_char (c : ascii) : ascii :=
  let n := nat_of_ascii c in
  if (97 <=? n)%nat && (n <=? 122)%nat then ascii_of_nat (n - 32) else c.

Fixpoint upper (s : string) : string :=
  match s with
  | EmptyString => EmptyString
  | String c rest => String (upper_char c) (upper rest)
  end.

(** [sys.argv[i]]. *)
Definition argv_item (argv : list string) (i : nat) : startup_exn + string :=
  match nth_error argv i with
  | Some a => inr a
  | None => inl ArgIndexError
  end.

Section Arguments.

(** [int(s)] for a text: the integer read, or [None] for [ValueError]. *)
Variable int : string -> option Z.

(** [int(sys.argv[i])]. *)
Definition argv_int (argv : list string) (i : nat) : startup_exn + Z :=
  match argv_item argv i with
  | inl e => inl e
  | inr a =>
      match int a with
      | Some n => inr n
      | None => inl ArgValueError
      end
  end.

Notation "x <- c ;; k" :=
  (match c with inl e => inl e | inr x => k end)
  (at level 61, c at next level, right associativity).

(** Lines 118-142; [from_file] holds what [from metar_settings import *]
    left in the module. Line 118 sets [use_preferred] to 0 after the
    imports, and only the branch of the arguments sets it again. *)
Definition process_args (from_file : settings) (argv : list string)
    : startup_exn + settings :=
  if (10 <=? List.length argv)%nat then
    a1 <- argv_item argv 1 ;;
    a2 <- argv_int argv 2 ;;
    a3 <- argv_int argv 3 ;;
    a4 <- argv_int argv 4 ;;
    a5 <- argv_int argv 5 ;;
    a6 <- argv_int argv 6 ;;
    a7 <- argv_int argv 7 ;;
    a8 <- argv_int argv 8 ;;
    a9 <- argv_int argv 9 ;;
    a10 <- argv_item argv 10 ;;
    inr {| airport := upper a1;
           use_disp_format := a2;
           interval := a3;
           use_remarks := a4;
           wind_speed_units := a5;
           cloud_layer_units := a6;
           visibility_units := a7;
           temperature_units := a8;
           pressure_units := a9;
           preferred_layouts := a10;
           use_preferred := if (a10 =? "na")%string then 0 else 1 |}
  else
    inr {| airport := airport from_file;
           use_disp_format := use_disp_format from_file;
           interval := interval from_file;
           use_remarks := use_remarks from_file;
           wind_speed_units := wind_speed_units from_file;
           cloud_layer_units := cloud_layer_units from_file;
           visibility_units := visibility_units from_file;
           temperature_units := temperature_units from_file;
           pressure_units := pressure_units from_file;
           preferred_layouts := preferred_layouts from_file;
           use_preferred := 0 |}.

End Arguments.

(** [main] (lines 152-178); [pick] is the draw of [random.choice]. The
    print of line 168 and the records of [logging] are left out. The
    value [True] that [main] returns is [Returned]. *)
Definition main (pick : nat) (layout_list : list routine) (st : settings)
    (g : Selector.counters) (s : surface) : Selector.counters * surface * outcome :=
  if use_disp_format st =? -1 then
    let '(s1, o) := Selector.random_layout pick layout_list s in (g, s1, o)
  else if use_disp_format st =? -2 then
    Selector.cycle_layout layout_list (preferred_layouts st) (use_preferred st) g s
  else if (0 <=? use_disp_format st) && (use_disp_format st <? Selector.len layout_list)
  then
    match Selector.item layout_list (use_disp_format st) with
    | None => (g, s, Returned) (* not reached: the index is in range *)
    | Some layout => let '(s1, o) := call layout s in (g, s1, o)
    end
  else
    (g,
     draw_all [Text 10 100 ("Error: Invalid Layout " ++ Py.str (use_disp_format st))
                 GRAY4 font24] s,
     Returned).

End Program.

(** Stand-ins for the extra services. *)
Module SampleMore.

(** [int] on an optional minus sign and digits. *)
Definition int (s : string) : option Z :=
  match s with
  | String "-"%char rest =>
      if Py.isdigit rest then Some (- Py.int_digits 0 rest) else None
  | _ => if Py.isdigit s then Some (Py.int_digits 0 s) else None
  end.

Definition from_file : Program.settings :=
  {| Program.airport := "KSFO"; Program.use_disp_format := -2;
     Program.interval := 0; Program.use_remarks := 1;
     Program.wind_speed_units := 2; Program.cloud_layer_units := 0;
     Program.visibility_units := 0; Program.temperature_units := 0;
     Program.pressure_units := 0; Program.preferred_layouts := "0";
     Program.use_preferred := 1 |}.

(** A report with the wind "Calm". *)
Definition calm_wind : Wind.decoded :=
  {| Wind.decoded_airport := "KSFO";
     Wind.decoded_wndir := "270";
     Wind.decoded_wnspd := "Calm";
     Wind.flight_category := "VFR";
     Wind.get_wxstring := "";
     Wind.get_clouds := [];
     Wind.cloud_unit := "ft";
     Wind.get_visib := ("10"%string, "sm"%string);
     Wind.get_temp := ("59"%string, "F"%string) |}.

(** The settings of a run with the display format [n]. *)
Definition with_format (n : Z) : Program.settings :=
  {| Program.airport := "KSFO"; Program.use_disp_format := n;
     Program.interval := 0; Program.use_remarks := 1;
     Program.wind_speed_units := 2; Program.cloud_layer_units := 0;
     Program.visibility_units := 0; Program.temperature_units := 0;
     Program.pressure_units := 0; Program.preferred_layouts := "na";
     Program.use_preferred := 0 |}.

(** The arguments of a start from the settings page, and what they are
    read as. *)
Definition argv : list string :=
  ["metar_main.py"; "ksfo"; "-2"; "0"; "1"; "2"; "0"; "0"; "0"; "0"; "20"]%string.

Definition parsed : Program.settings :=
  {| Program.airport := "KSFO"; Program.use_disp_format := -2;
     Program.interval := 0; Program.use_remarks := 1;
     Program.wind_speed_units := 2; Program.cloud_layer_units := 0;
     Program.visibility_units := 0; Program.temperature_units := 0;
     Program.pressure_units := 0; Program.preferred_layouts := "20";
     Program.use_preferred := 1 |}.

(** A routine that draws its number and then raises. *)
Definition failing (n : Z) : routine :=
  {| __name__ := "failing";
     call := fun s => (draw_all [Text 0 0 (Py.str n) GRAY4 font16] s, Raised ValueError) |}.

End SampleMore.

(** * Properties *)

(** ** Evaluations *)

Example relative_angle_270 : Angle.relative_angle_deg 270 180 = 90.
Proof. reflexivity. Qed.

Example relative_angle_0 : Angle.relative_angle_deg 0 180 = 180.
Proof. reflexivity. Qed.

Example relative_angle_neg : Angle.relative_angle_deg (-1000) 180 = -100.
Proof. reflexivity. Qed.

Example zfill_90 : Py.zfill 3 (Py.str 90) = "090"%string.
Proof. reflexivity. Qed.

Example zfill_18 : Py.zfill 2 (Py.str 18) = "18"%string.
Proof. reflexivity. Qed.

Example int_digits_090 : Py.int_digits 0 "090" = 90.
Proof. reflexivity. Qed.

Example round_ties : (Py.round (5 # 2), Py.round (7 # 2), Py.round (-5 # 2)) = (2, 4, -2).
Proof. reflexivity. Qed.

Example int_truncates : (Py.int (17 # 2), Py.int (-17 # 2)) = (8, -8).
Proof. reflexivity. Qed.

(** ** The relative wind angle *)

Module AngleFacts.
Import Angle.

(** The first loop leaves a value of at most 180, does not touch a value
    that is already there, and does not overshoot. *)
Lemma wrap_down_spec (r : Z) :
  wrap_down r <= 180
  /\ (r <= 180 -> wrap_down r = r)
  /\ (180 < r -> -180 < wrap_down r).
Proof.
  funelim (wrap_down r).
  - destruct H as (Hle & Hid & Hgt).
    split; [lia | split; [lia |]].
    intros _. destruct (Z_gt_le_dec (r - 360) 180) as [Hbig | Hsmall].
    + apply Hgt. lia.
    + rewrite Hid by lia. lia.
  - split; [lia | split; lia].
Qed.

(** The second loop leaves a value above -180, does not touch a value
    that is already there, and does not overshoot. *)
Lemma wrap_up_spec (r : Z) :
  -180 < wrap_up r
  /\ (-180 < r -> wrap_up r = r)
  /\ (r <= -180 -> wrap_up r <= 180).
Proof.
  funelim (wrap_up r).
  - destruct H as (Hgt & Hid & Hle).
    split; [lia | split; [lia |]].
    intros _. destruct (Z_le_gt_dec (r + 360) (-180)) as [Hsmall | Hbig].
    + apply Hle. lia.
    + rewrite Hid by lia. lia.
  - split; [lia | split; lia].
Qed.

(** Both loops change the angle by whole turns only. *)
Lemma wrap_down_turns (r : Z) : exists k, wrap_down r = r - 360 * k /\ 0 <= k.
Proof.
  funelim (wrap_down r).
  - destruct H as (k & -> & Hk). exists (k + 1). lia.
  - exists 0. lia.
Qed.

Lemma wrap_up_turns (r : Z) : exists k, wrap_up r = r + 360 * k /\ 0 <= k.
Proof.
  funelim (wrap_up r).
  - destruct H as (k & -> & Hk). exists (k + 1). lia.
  - exists 0. lia.
Qed.

Lemma relative_angle_range (wind_direction heading : Z) :
  -180 < relative_angle_deg wind_direction heading <= 180.
Proof.
  unfold relative_angle_deg.
  set (r := wind_direction - heading).
  destruct (wrap_down_spec r) as (Hle & _ & _).
  destruct (wrap_up_spec (wrap_down r)) as (Hgt & Hid & Hup).
  split; [exact Hgt |].
  destruct (Z_le_gt_dec (wrap_down r) (-180)) as [Hsmall | Hbig].
  - apply Hup, Hsmall.
  - rewrite Hid by lia. exact Hle.
Qed.

Lemma relative_angle_congruent (wind_direction heading : Z) :
  (relative_angle_deg wind_direction heading - (wind_direction - heading)) mod 360 = 0.
Proof.
  unfold relative_angle_deg.
  destruct (wrap_down_turns (wind_direction - heading)) as (k & Hk & _).
  destruct (wrap_up_turns (wrap_down (wind_direction - heading))) as (j & Hj & _).
  rewrite Hj, Hk.
  replace (_ - _) with ((j - k) * 360) by lia.
  apply Z_mod_mult.
Qed.

End AngleFacts.

(** C1. For every integer wind direction, with the runway heading 180 of
    runway 18, the relative angle left by the two loops of lines 219-220
    lies in the half-open interval from -180 (excluded) to 180
    (included). The loops terminate on every input: the angle is a total
    function. *)
Theorem relative_angle_in_half_open_interval :
  forall wind_direction : Z,
    -180 < Angle.relative_angle_deg wind_direction (Angle.runway_heading 18)
    /\ Angle.relative_angle_deg wind_direction (Angle.runway_heading 18) <= 180.
Proof.
  intros wind_direction.
  apply AngleFacts.relative_angle_range.
Qed.

(** ** The taper of the arrow shaft *)

Module ShaftFacts.
Import Wind.

Lemma taper_ratio_nonzero (near far : Z) :
  near <> 0 -> runway_taper_ratio near far = (inject_Z far / inject_Z near)%Q.
Proof.
  intros Hnear. unfold runway_taper_ratio.
  destruct (Z.eqb_spec near 0) as [H0 | _]; [contradiction | reflexivity].
Qed.

Lemma taper_ratio_zero (far : Z) : runway_taper_ratio 0 far = 1%Q.
Proof. reflexivity. Qed.

Lemma far_half_w_nonzero (near far : Z) :
  near <> 0 ->
  (far_half_w near far == near_half_w * (inject_Z far / inject_Z near))%Q.
Proof.
  intros Hnear. unfold far_half_w, arrow_shaft_width_far, near_half_w.
  rewrite taper_ratio_nonzero by exact Hnear.
  field. intros H. apply Hnear.
  unfold Qeq in H. cbn in H. lia.
Qed.

Lemma far_half_w_zero (far : Z) : (far_half_w 0 far == near_half_w)%Q.
Proof. reflexivity. Qed.

(** The widths of the code: the far half-width is 70/17, about 4.12. *)
Lemma far_half_w_85_50 : (far_half_w 85 50 == 70 # 17)%Q.
Proof. reflexivity. Qed.

(** The same on binary64 numbers: no rounding separates the two sides. *)
Lemma binary64_far_half_w_85_50 :
  Binary64.far_half_w 85 50
  = (Binary64.near_half_w * (Binary64.of_int 50 / Binary64.of_int 85))%float.
Proof. reflexivity. Qed.

Lemma binary64_far_half_w_zero (far : Z) :
  Binary64.far_half_w 0 far = Binary64.near_half_w.
Proof. reflexivity. Qed.

End ShaftFacts.

(** C2. The far half-width of the arrow shaft is the near half-width
    times the ratio of the far to the near runway width, and with a near
    runway width of 0 the ratio counts as 1: the far half-width is the
    near half-width. Stated on exact numbers for all widths, and on
    binary64 numbers for the widths 85 and 50 of the code and for a near
    width of 0. *)
Theorem far_half_width_follows_runway_taper :
  forall runway_width_near runway_width_far : Z,
    (runway_width_near <> 0 ->
     (Wind.far_half_w runway_width_near runway_width_far
      == Wind.near_half_w * (inject_Z runway_width_far / inject_Z runway_width_near))%Q)
    /\ (runway_width_near = 0 ->
        (Wind.far_half_w runway_width_near runway_width_far == Wind.near_half_w)%Q
        /\ Binary64.far_half_w runway_width_near runway_width_far = Binary64.near_half_w)
    /\ Binary64.far_half_w 85 50
       = (Binary64.near_half_w * (Binary64.of_int 50 / Binary64.of_int 85))%float.
Proof.
  intros near far. split; [| split].
  - apply ShaftFacts.far_half_w_nonzero.
  - intros ->. split.
    + apply ShaftFacts.far_half_w_zero.
    + apply ShaftFacts.binary64_far_half_w_zero.
  - apply ShaftFacts.binary64_far_half_w_85_50.
Qed.

(** The theorem at the runway of the code, 85 wide near and 50 far, and
    at a runway of no width. *)
Lemma far_half_width_follows_runway_taper_witness :
  (Wind.far_half_w 85 50 == Wind.near_half_w * (inject_Z 50 / inject_Z 85))%Q
  /\ (Wind.far_half_w 0 50 == Wind.near_half_w)%Q.
Proof.
  split.
  - apply (proj1 (far_half_width_follows_runway_taper 85 50)). lia.
  - apply (proj1 (proj2 (far_half_width_follows_runway_taper 0 50))). reflexivity.
Defined.

(** ** The layout selector *)

Module SelectorFacts.
Import Selector Cycles.

Local Open Scope string_scope.
Local Open Scope list_scope.
Local Open Scope Z_scope.

Lemma len_nonneg {A : Type} (l : list A) : 0 <= len l.
Proof. unfold len. lia. Qed.

Lemma len_zero {A : Type} (l : list A) : len l = 0 <-> l = [].
Proof.
  unfold len. destruct l; cbn; split; intros H; try reflexivity; try discriminate; lia.
Qed.

(** An index in range finds an item. *)
Lemma item_in_range {A : Type} (l : list A) (i : Z) :
  0 <= i < len l -> exists x, item l i = Some x.
Proof.
  intros Hi. unfold item, len in *.
  destruct (nth_error l (Z.to_nat i)) as [x |] eqn:Hnth.
  - exists x. reflexivity.
  - apply nth_error_None in Hnth. lia.
Qed.

Lemma item_In {A : Type} (l : list A) (i : Z) (x : A) : item l i = Some x -> In x l.
Proof. unfold item. apply nth_error_In. Qed.

(** *** Parsing the preferred layouts *)

Lemma int_of_char_digit (a : ascii) (d : Z) :
  int_of_char a = Some d -> Py.is_digit a = true /\ d = Py.digit_value a /\ 0 <= d <= 9.
Proof.
  unfold int_of_char. destruct (Py.is_digit a) eqn:Hd; [| discriminate].
  intros [= <-]. split; [reflexivity | split; [reflexivity |]].
  unfold Py.is_digit in Hd. unfold Py.digit_value.
  apply andb_true_iff in Hd. destruct Hd as [Hlo Hhi].
  apply Nat.leb_le in Hlo. apply Nat.leb_le in Hhi. lia.
Qed.

Lemma p_layouts_lst_some (s : string) (p : list Z) :
  p_layouts_lst s = Some p ->
  p = map Py.digit_value (list_ascii_of_string s)
  /\ forallb Py.is_digit (list_ascii_of_string s) = true
  /\ Forall (fun i => 0 <= i <= 9) p.
Proof.
  revert p. induction s as [| a rest IH]; intros p; cbn.
  - intros [= <-]. repeat split. constructor.
  - destruct (int_of_char a) as [d |] eqn:Ha; [| discriminate].
    destruct (p_layouts_lst rest) as [ds |]; [| discriminate].
    intros [= <-].
    destruct (int_of_char_digit a d Ha) as (Hdig & -> & Hrange).
    destruct (IH ds eq_refl) as (-> & Hall & Hds).
    rewrite Hdig, Hall. repeat split. constructor; assumption.
Qed.



(** *** One call *)

(** With a list of routines that return, a call that goes through all
    layouts runs the routine at the counter modulo the length, and
    counts. *)
Lemma cycle_all_step (layout_list : list routine) (g : counters) (s : surface) :
  layout_list <> [] ->
  Forall returns layout_list ->
  exists r,
    item layout_list (cycle_num g mod len layout_list) = Some r
    /\ cycle_all layout_list g s
       = ({| cycle_num := cycle_num g + 1; pref_cycle := pref_cycle g |},
          fst (call r (print (CycleIndex (cycle_num g mod len layout_list)) s)),
          Returned).
Proof.
  intros Hne Hret.
  assert (Hlen : 0 < len layout_list).
  { pose proof (len_nonneg layout_list) as Hpos.
    pose proof (len_zero layout_list) as Hzero.
    destruct (Z.eq_dec (len layout_list) 0) as [Hz | Hz]; [| lia].
    exfalso. apply Hne. tauto. }
  destruct (item_in_range layout_list (cycle_num g mod len layout_list)) as [r Hr].
  { apply Z.mod_pos_bound. exact Hlen. }
  exists r. split; [exact Hr |].
  unfold cycle_all.
  destruct (Z.eqb_spec (len layout_list) 0) as [H0 | _]; [lia |].
  cbv zeta. rewrite Hr.
  assert (Hr' : returns r).
  { rewrite Forall_forall in Hret. apply Hret. eapply item_In. exact Hr. }
  specialize (Hr' (print (CycleIndex (cycle_num g mod len layout_list)) s)).
  destruct (call r _) as [s2 o]. cbn in *. subst o. reflexivity.
Qed.

(** The preferred branch, entry out of range: nothing is drawn and no
    counter moves. *)
Lemma cycle_preferred_out_of_range (layout_list : list routine) (p : list Z)
    (g : counters) (s : surface) (i : Z) :
  item p (pref_cycle g mod len p) = Some i ->
  ~ (0 <= i < len layout_list) ->
  cycle_preferred layout_list p g s = (g, print (PreferredIndexOutOfRange i) s, Returned).
Proof.
  intros Hi Hout. unfold cycle_preferred. cbv zeta. rewrite Hi.
  destruct (Z.leb_spec 0 i); destruct (Z.ltb_spec i (len layout_list));
    cbn; try reflexivity; lia.
Qed.

(** The preferred branch, entry in range and a routine that returns. *)
Lemma cycle_preferred_in_range (layout_list : list routine) (p : list Z)
    (g : counters) (s : surface) (i : Z) (r : routine) :
  item p (pref_cycle g mod len p) = Some i ->
  0 <= i < len layout_list ->
  item layout_list i = Some r ->
  returns r ->
  cycle_preferred layout_list p g s
  = ({| cycle_num := cycle_num g; pref_cycle := pref_cycle g + 1 |},
     fst (call r (print (PreferredIndexInList i) s)), Returned).
Proof.
  intros Hi Hin Hr Hret. unfold cycle_preferred. cbv zeta. rewrite Hi.
  destruct (Z.leb_spec 0 i); destruct (Z.ltb_spec i (len layout_list)); try lia.
  cbn. rewrite Hr.
  specialize (Hret (print (PreferredIndexInList i) s)).
  destruct (call r _) as [s2 o]. cbn in *. subst o. reflexivity.
Qed.

(** *** Runs of calls *)

Lemma counters_after_cycle_all (layout_list : list routine) (prefs : string)
    (use_preferred : Z) (fresh : nat -> surface) (g0 : counters) (n : nat) :
  layout_list <> [] ->
  Forall returns layout_list ->
  use_preferred <> 1 ->
  counters_after layout_list prefs use_preferred fresh g0 n
  = {| cycle_num := cycle_num g0 + Z.of_nat n; pref_cycle := pref_cycle g0 |}.
Proof.
  intros Hne Hret Hall. induction n as [| k IH].
  - cbn. destruct g0. cbn. f_equal. lia.
  - cbn [counters_after]. rewrite IH. unfold cycle_layout.
    destruct (Z.eqb_spec use_preferred 1) as [H1 | _]; [contradiction |].
    destruct (cycle_all_step layout_list
                {| cycle_num := cycle_num g0 + Z.of_nat k; pref_cycle := pref_cycle g0 |}
                (fresh k) Hne Hret) as (r & _ & ->).
    cbn. f_equal. lia.
Qed.

End SelectorFacts.

(** The preferred list [2,0] with three routines: calls 0, 1, 2 and 3
    run the routines 2, 0, 2 and 0, and each one counts. *)
Example preferred_2_0_of_three :
  let layout_list := [Sample.stamp 0; Sample.stamp 1; Sample.stamp 2] in
  map (Cycles.kth_call layout_list "20" 1 (fun _ => blank) Selector.initial)
      [0%nat; 1%nat; 2%nat; 3%nat]
  = [({| Selector.cycle_num := 0; Selector.pref_cycle := 1 |},
      {| image := [Text 0 0 "2" GRAY4 font16]; stdout := [PreferredIndexInList 2] |},
      Returned);
     ({| Selector.cycle_num := 0; Selector.pref_cycle := 2 |},
      {| image := [Text 0 0 "0" GRAY4 font16]; stdout := [PreferredIndexInList 0] |},
      Returned);
     ({| Selector.cycle_num := 0; Selector.pref_cycle := 3 |},
      {| image := [Text 0 0 "2" GRAY4 font16]; stdout := [PreferredIndexInList 2] |},
      Returned);
     ({| Selector.cycle_num := 0; Selector.pref_cycle := 4 |},
      {| image := [Text 0 0 "0" GRAY4 font16]; stdout := [PreferredIndexInList 0] |},
      Returned)].
Proof. reflexivity. Qed.

(** Two digits are two entries: no entry is 10 or more. *)
Example preferred_10_is_1_then_0 : Selector.p_layouts_lst "10" = Some [1; 0].
Proof. reflexivity. Qed.

(** C3. With the preferred layouts "50" and the one routine of the
    repository, entry 5 is out of range: the call prints the error,
    draws nothing and returns, and [pref_cycle] is left as it was, so
    every later call meets entry 5 again and entry 0 is never reached.
    The counter is not incremented after a call that fails. *)
Theorem preferred_out_of_range_keeps_counter :
  forall (r : routine) (fresh : nat -> surface) (n : nat),
    Cycles.counters_after [r] "50" 1 fresh Selector.initial n = Selector.initial
    /\ Cycles.kth_call [r] "50" 1 fresh Selector.initial n
       = (Selector.initial, print (PreferredIndexOutOfRange 5) (fresh n), Returned).
Proof.
  intros r fresh n.
  assert (Hstay : Cycles.counters_after [r] "50" 1 fresh Selector.initial n
                  = Selector.initial).
  { induction n as [| k IH]; [reflexivity |].
    cbn [Cycles.counters_after]. rewrite IH. reflexivity. }
  split; [exact Hstay |].
  unfold Cycles.kth_call. rewrite Hstay. reflexivity.
Qed.

(** C5. Going through all layouts from a counter of 0, with a list of
    M routines (M not 0) that return: before call k the counter is k,
    the call runs the routine at position k mod M, and leaves the
    counter at k + 1. Position after position, none is skipped. *)
Theorem cycle_all_runs_k_mod_length :
  forall (layout_list : list routine) (preferred_layouts : string)
         (use_preferred : Z) (fresh : nat -> surface) (k : nat),
    layout_list <> [] ->
    Forall Cycles.returns layout_list ->
    use_preferred <> 1 ->
    Selector.cycle_num
      (Cycles.counters_after layout_list preferred_layouts use_preferred fresh
         Selector.initial k) = Z.of_nat k
    /\ exists cycle_pick : routine,
         Selector.item layout_list (Z.of_nat k mod Selector.len layout_list)
         = Some cycle_pick
         /\ Cycles.kth_call layout_list preferred_layouts use_preferred fresh
              Selector.initial k
            = ({| Selector.cycle_num := Z.of_nat k + 1; Selector.pref_cycle := 0 |},
               fst (call cycle_pick
                      (print (CycleIndex (Z.of_nat k mod Selector.len layout_list))
                         (fresh k))),
               Returned).
Proof.
  intros layout_list prefs use_preferred fresh k Hne Hret Hall.
  unfold Cycles.kth_call.
  rewrite SelectorFacts.counters_after_cycle_all by assumption.
  cbn [Selector.cycle_num Selector.pref_cycle Selector.initial].
  split; [lia |].
  unfold Selector.cycle_layout.
  destruct (Z.eqb_spec use_preferred 1) as [H1 | _]; [contradiction |].
  destruct (SelectorFacts.cycle_all_step layout_list
              {| Selector.cycle_num := 0 + Z.of_nat k; Selector.pref_cycle := 0 |}
              (fresh k) Hne Hret) as (r & Hr & Hcall).
  cbn [Selector.cycle_num Selector.pref_cycle] in *.
  rewrite Z.add_0_l in *.
  exists r. split; [exact Hr |]. rewrite Hcall. reflexivity.
Qed.

(** Call 4 of three routines runs the routine at position 1. *)
Lemma cycle_all_runs_k_mod_length_witness :
  let layout_list := [Sample.stamp 0; Sample.stamp 1; Sample.stamp 2] in
  Selector.cycle_num
    (Cycles.counters_after layout_list "na" 0 (fun _ => blank) Selector.initial 4) = 4
  /\ exists cycle_pick : routine,
       Selector.item layout_list (4 mod Selector.len layout_list) = Some cycle_pick
       /\ Cycles.kth_call layout_list "na" 0 (fun _ => blank) Selector.initial 4
          = ({| Selector.cycle_num := 4 + 1; Selector.pref_cycle := 0 |},
             fst (call cycle_pick
                    (print (CycleIndex (4 mod Selector.len layout_list)) blank)),
             Returned).
Proof.
  apply (cycle_all_runs_k_mod_length
           [Sample.stamp 0; Sample.stamp 1; Sample.stamp 2] "na" 0 (fun _ => blank) 4).
  - discriminate.
  - repeat constructor.
  - lia.
Defined.

(** C9. With an empty list of routines, [cycle_layout] going through
    all layouts raises [ZeroDivisionError] (the modulus by the length),
    while [random_layout] prints its error, draws nothing and returns. *)
Theorem empty_layout_list_raises_or_returns :
  forall (preferred_layouts : string) (use_preferred : Z)
         (g : Selector.counters) (s : surface) (pick : nat),
    (use_preferred <> 1 ->
     Selector.cycle_layout [] preferred_layouts use_preferred g s
     = (g, s, Raised ZeroDivisionError))
    /\ Selector.random_layout pick [] s = (print LayoutListEmpty s, Returned)
    /\ image (fst (Selector.random_layout pick [] s)) = image s.
Proof.
  intros prefs use_preferred g s pick. split; [| split; reflexivity].
  intros Hall. unfold Selector.cycle_layout.
  destruct (Z.eqb_spec use_preferred 1) as [H1 | _]; [contradiction | reflexivity].
Qed.

Lemma empty_layout_list_raises_or_returns_witness :
  Selector.cycle_layout [] "na" 0 Selector.initial blank
  = (Selector.initial, blank, Raised ZeroDivisionError).
Proof.
  apply (proj1 (empty_layout_list_raises_or_returns "na" 0 Selector.initial blank 0)).
  lia.
Defined.



(** ** The sleep policy *)

(** C6. A nonzero interval is the sleep duration, whatever the flight
    category (45 gives 45); with an interval of 0 the duration is 3600
    for VFR, 1800 for MVFR, 1200 for IFR, 600 for LIFR and 1800 for any
    other category. *)
Theorem sleep_interval_by_override_or_category :
  forall (interval : Z) (flightcategory : string),
    (interval <> 0 -> Main.sleep_interval interval flightcategory = interval)
    /\ Main.sleep_interval 45 flightcategory = 45
    /\ Main.sleep_interval 0 "VFR" = 3600
    /\ Main.sleep_interval 0 "MVFR" = 1800
    /\ Main.sleep_interval 0 "IFR" = 1200
    /\ Main.sleep_interval 0 "LIFR" = 600
    /\ (flightcategory <> "VFR"%string -> flightcategory <> "MVFR"%string ->
        flightcategory <> "IFR"%string -> flightcategory <> "LIFR"%string ->
        Main.sleep_interval 0 flightcategory = 1800).
Proof.
  intros interval fc. repeat split; try reflexivity.
  - intros Hi. unfold Main.sleep_interval.
    destruct (Z.eqb_spec interval 0) as [H0 | _]; [contradiction | reflexivity].
  - intros Hv Hm Hi Hl. unfold Main.sleep_interval. cbn.
    destruct (String.eqb_spec fc "VFR"); [contradiction |].
    destruct (String.eqb_spec fc "MVFR"); [contradiction |].
    destruct (String.eqb_spec fc "IFR"); [contradiction |].
    destruct (String.eqb_spec fc "LIFR"); [contradiction | reflexivity].
Qed.

Lemma sleep_interval_by_override_or_category_witness :
  Main.sleep_interval 45 "IFR" = 45 /\ Main.sleep_interval 0 "N/A" = 1800.
Proof.
  split.
  - apply (proj1 (sleep_interval_by_override_or_category 45 "IFR")). lia.
  - apply (proj2 (proj2 (proj2 (proj2 (proj2 (proj2
             (sleep_interval_by_override_or_category 0 "N/A")))))));
      discriminate.
Defined.

(** ** The wind layout *)

Module WindFacts.
Import Wind.

Local Open Scope string_scope.
Local Open Scope list_scope.
Local Open Scope Z_scope.

Lemma skipn_length_app {A : Type} (l extra : list A) :
  skipn (List.length l) (l ++ extra) = extra.
Proof. induction l as [| x l IH]; cbn; [reflexivity | exact IH]. Qed.

(** Texts and rectangles are neither polygons nor lines. *)
Definition plain (o : draw_op) : Prop := is_polygon o = false /\ is_line o = false.

Lemma plain_polygons (ops : list draw_op) : Forall plain ops -> polygons ops = [].
Proof.
  induction 1 as [| o ops [Hp _] _ IH]; [reflexivity |].
  unfold polygons in *. cbn. rewrite Hp. exact IH.
Qed.

Lemma plain_lines (ops : list draw_op) : Forall plain ops -> lines ops = [].
Proof.
  induction 1 as [| o ops [_ Hl] _ IH]; [reflexivity |].
  unfold lines in *. cbn. rewrite Hl. exact IH.
Qed.

Lemma plain_text x y t c f : plain (Text x y t c f).
Proof. split; reflexivity. Qed.

Lemma plain_rectangle a b c d e : plain (Rectangle a b c d e).
Proof. split; reflexivity. Qed.

(** A list written out, of texts and rectangles only. *)
Ltac plain_ops :=
  repeat first
    [ apply Forall_nil
    | apply Forall_cons; [first [apply plain_text | apply plain_rectangle] |] ].

Section Pieces.

Variable textsize : string -> font -> Z * Z.
Variable float : string -> option Q.
Variables cos_deg sin_deg : Z -> Q.
Variable update_text : string.
Variables SCREEN_WIDTH SCREEN_HEIGHT wind_speed_units : Z.

Lemma plain_notice (m : metar) : Forall plain (notice m).
Proof. destruct m; unfold notice, read_metar, draw_all, print; cbn [fst image app blank]; plain_ops. Qed.

Lemma plain_badge (fc : string) : Forall plain (badge textsize SCREEN_WIDTH fc).
Proof.
  unfold badge.
  destruct (Py.truthy fc && negb (fc =? "N/A")%string); [| plain_ops].
  destruct (textsize fc font24b) as [w h].
  destruct ((fc =? "VFR")%string || (fc =? "MVFR")%string); plain_ops.
Qed.

Lemma plain_header (v : fields) : Forall plain (header textsize SCREEN_WIDTH v).
Proof. unfold header. plain_ops. apply plain_badge. Qed.

Lemma plain_wind_info (v : fields) : Forall plain (wind_info float wind_speed_units v).
Proof. unfold wind_info. cbv zeta. plain_ops. Qed.

Lemma plain_cloud_lines (x y : Z) (unit : string) (i : Z) (layers : list (string * string)) :
  Forall plain (cloud_lines x y unit i layers).
Proof.
  revert i. induction layers as [| [cctype ccheight] rest IH]; intros i;
    cbn [cloud_lines]; cbv zeta; plain_ops. apply IH.
Qed.

Lemma plain_left_column (v : fields) : Forall plain (left_column v).
Proof.
  unfold left_column. cbv zeta.
  apply Forall_app. split; [| apply Forall_app; split].
  - plain_ops. destruct (_ <? _)%nat; plain_ops.
  - plain_ops.
    destruct (cloud_layers v); [plain_ops | apply plain_cloud_lines].
  - plain_ops.
Qed.

Lemma plain_right_column (v : fields) : Forall plain (right_column SCREEN_WIDTH v).
Proof. unfold right_column. cbv zeta. plain_ops. Qed.

Lemma plain_footer : Forall plain (footer textsize update_text SCREEN_HEIGHT).
Proof. unfold footer. destruct (textsize update_text font16). plain_ops. Qed.

(** The dashed centre line: two dashes, whatever the width of the
    screen. *)
Lemma centerline_two_dashes :
  let cx := SCREEN_WIDTH / 2 in
  centerline SCREEN_WIDTH = [Line cx 182 cx 188 GRAY1 2; Line cx 192 cx 198 GRAY1 2].
Proof.
  cbv zeta. unfold centerline, centerX, centerY, VISUALIZATION_Y, gap_length.
  cbn -[dashes Z.div]. rewrite Z.div_1_r || idtac.
  simp dashes. cbn. simp dashes. cbn. simp dashes. reflexivity.
Qed.

(** The threshold marks, written out. *)
Lemma threshold_eight_marks :
  let cx := SCREEN_WIDTH / 2 in
  threshold SCREEN_WIDTH
  = map (fun d => Line (cx + d) 227 (cx + d) 232 GRAY1 1) threshold_offsets.
Proof. reflexivity. Qed.

Lemma runway_label_is_text : is_text (runway_label textsize SCREEN_WIDTH) = true.
Proof. unfold runway_label. cbv zeta. destruct (textsize _ _). reflexivity. Qed.

Lemma polygons_runway :
  polygons (runway textsize SCREEN_WIDTH) = [runway_outline SCREEN_WIDTH].
Proof.
  unfold runway. pose proof runway_label_is_text as Hlabel.
  destruct (runway_label textsize SCREEN_WIDTH); try discriminate.
  rewrite centerline_two_dashes. reflexivity.
Qed.

Lemma lines_runway :
  lines (runway textsize SCREEN_WIDTH)
  = centerline SCREEN_WIDTH ++ threshold SCREEN_WIDTH.
Proof.
  unfold runway. pose proof runway_label_is_text as Hlabel.
  destruct (runway_label textsize SCREEN_WIDTH); try discriminate.
  rewrite centerline_two_dashes. reflexivity.
Qed.

Lemma polygons_visualization (v : fields) :
  polygons (visualization textsize float cos_deg sin_deg SCREEN_WIDTH v)
  = (if Qlt_le_dec 0 (wind_speed float (wnspd v))
     then arrow cos_deg sin_deg SCREEN_WIDTH (wind_direction (wndir v)) 85 50
     else [])
    ++ [runway_outline SCREEN_WIDTH].
Proof.
  unfold visualization. cbv zeta. unfold polygons. rewrite filter_app.
  fold (polygons (runway textsize SCREEN_WIDTH)). rewrite polygons_runway.
  destruct (Qlt_le_dec 0 _); reflexivity.
Qed.

Lemma lines_visualization (v : fields) :
  lines (visualization textsize float cos_deg sin_deg SCREEN_WIDTH v)
  = centerline SCREEN_WIDTH ++ threshold SCREEN_WIDTH.
Proof.
  unfold visualization. cbv zeta. unfold lines. rewrite filter_app.
  fold (lines (runway textsize SCREEN_WIDTH)). rewrite lines_runway.
  destruct (Qlt_le_dec 0 _); reflexivity.
Qed.

Let the_panels :=
  panels textsize float cos_deg sin_deg update_text SCREEN_WIDTH SCREEN_HEIGHT
    wind_speed_units.

Lemma polygons_panels (v : fields) :
  polygons (the_panels v)
  = polygons (visualization textsize float cos_deg sin_deg SCREEN_WIDTH v).
Proof.
  unfold the_panels, panels, polygons. rewrite !filter_app.
  fold (polygons (header textsize SCREEN_WIDTH v)).
  fold (polygons (wind_info float wind_speed_units v)).
  fold (polygons (left_column v)).
  fold (polygons (right_column SCREEN_WIDTH v)).
  fold (polygons (footer textsize update_text SCREEN_HEIGHT)).
  rewrite (plain_polygons _ (plain_header v)), (plain_polygons _ (plain_wind_info v)),
    (plain_polygons _ (plain_left_column v)), (plain_polygons _ (plain_right_column v)),
    (plain_polygons _ plain_footer).
  cbn [app]. apply app_nil_r.
Qed.

Lemma lines_panels (v : fields) :
  lines (the_panels v)
  = lines (visualization textsize float cos_deg sin_deg SCREEN_WIDTH v).
Proof.
  unfold the_panels, panels, lines. rewrite !filter_app.
  fold (lines (header textsize SCREEN_WIDTH v)).
  fold (lines (wind_info float wind_speed_units v)).
  fold (lines (left_column v)).
  fold (lines (right_column SCREEN_WIDTH v)).
  fold (lines (footer textsize update_text SCREEN_HEIGHT)).
  rewrite (plain_lines _ (plain_header v)), (plain_lines _ (plain_wind_info v)),
    (plain_lines _ (plain_left_column v)), (plain_lines _ (plain_right_column v)),
    (plain_lines _ plain_footer).
  cbn [app]. apply app_nil_r.
Qed.

Let the_layout :=
  layout_wind textsize float cos_deg sin_deg update_text SCREEN_WIDTH SCREEN_HEIGHT
    wind_speed_units.

(** What a call draws: the message of the [try] block, and the panels
    unless the call returned at line 106. *)
Lemma drawn_layout_wind (m : metar) (s : surface) :
  drawn (the_layout m) s
  = notice m ++ match report m with
                | Some v => the_panels v
                | None => []
                end.
Proof.
  unfold drawn, the_layout, layout_wind, layout_wind_body, report, notice, the_panels.
  cbn [call].
  destruct m; unfold read_metar, draw_all, print, blank; cbn [fst snd image app].
  - apply skipn_length_app.
  - rewrite <- app_assoc. apply skipn_length_app.
  - apply skipn_length_app.
  - rewrite <- app_assoc. apply skipn_length_app.
Qed.

(** Every call returns. *)
Lemma layout_wind_returns (m : metar) (s : surface) :
  snd (call (the_layout m) s) = Returned.
Proof.
  unfold the_layout, layout_wind, layout_wind_body. cbn [call].
  destruct (read_metar m s) as [s1 [v |]]; reflexivity.
Qed.

Lemma polygons_drawn (m : metar) (v : fields) (s : surface) :
  report m = Some v ->
  polygons (drawn (the_layout m) s)
  = (if Qlt_le_dec 0 (wind_speed float (wnspd v))
     then arrow cos_deg sin_deg SCREEN_WIDTH (wind_direction (wndir v)) 85 50
     else [])
    ++ [runway_outline SCREEN_WIDTH].
Proof.
  intros Hv. rewrite drawn_layout_wind, Hv.
  unfold polygons at 1. rewrite filter_app.
  fold (polygons (notice m)). fold (polygons (the_panels v)).
  rewrite (plain_polygons _ (plain_notice m)), polygons_panels.
  apply polygons_visualization.
Qed.

Lemma lines_drawn (m : metar) (v : fields) (s : surface) :
  report m = Some v ->
  lines (drawn (the_layout m) s) = centerline SCREEN_WIDTH ++ threshold SCREEN_WIDTH.
Proof.
  intros Hv. rewrite drawn_layout_wind, Hv.
  unfold lines at 1. rewrite filter_app.
  fold (lines (notice m)). fold (lines (the_panels v)).
  rewrite (plain_lines _ (plain_notice m)), lines_panels.
  apply lines_visualization.
Qed.

End Pieces.

End WindFacts.

(** C7. The flight category badge has a filled rectangle behind the
    text exactly when the category is a text other than "N/A", "VFR"
    and "MVFR", as "IFR" and "LIFR" are; "VFR" and "MVFR" are plain
    text, and so is the unknown category, "N/A" or no text at all, shown
    as "N/A". *)
Theorem badge_boxed_unless_vfr_mvfr_or_na :
  forall (textsize : string -> font -> Z * Z) (SCREEN_WIDTH : Z) (flightcategory : string),
    let fc_x := SCREEN_WIDTH - 75 in
    let fc_w := fst (textsize flightcategory font24b) in
    let fc_h := snd (textsize flightcategory font24b) in
    (flightcategory = "VFR"%string \/ flightcategory = "MVFR"%string ->
     Wind.badge textsize SCREEN_WIDTH flightcategory
     = [Text fc_x 15 flightcategory GRAY1 font24b])
    /\ (flightcategory = ""%string \/ flightcategory = "N/A"%string ->
        Wind.badge textsize SCREEN_WIDTH flightcategory
        = [Text fc_x 15 "N/A" GRAY1 font24b])
    /\ (flightcategory <> ""%string -> flightcategory <> "N/A"%string ->
        flightcategory <> "VFR"%string -> flightcategory <> "MVFR"%string ->
        Wind.badge textsize SCREEN_WIDTH flightcategory
        = [Rectangle (fc_x - 5) (15 - 5) (fc_x + fc_w + 5) (15 + fc_h + 5) GRAY1;
           Text fc_x 15 flightcategory GRAY4 font24b]).
Proof.
  intros textsize W fc. cbv zeta. unfold Wind.badge. split; [| split].
  - intros [-> | ->]; cbn; destruct (textsize _ _); reflexivity.
  - intros [-> | ->]; reflexivity.
  - intros Hne Hna Hv Hm.
    assert (Htruthy : Py.truthy fc = true) by (destruct fc; [contradiction | reflexivity]).
    rewrite Htruthy.
    destruct (String.eqb_spec fc "N/A"); [contradiction |].
    destruct (String.eqb_spec fc "VFR"); [contradiction |].
    destruct (String.eqb_spec fc "MVFR"); [contradiction |].
    cbn. destruct (textsize fc font24b). reflexivity.
Qed.

(** The badges of "IFR" (boxed), "MVFR" (plain) and "N/A" (plain). *)
Lemma badge_boxed_unless_vfr_mvfr_or_na_witness :
  Wind.badge Sample.textsize 400 "IFR"
  = [Rectangle 320 10 372 48 GRAY1; Text 325 15 "IFR" GRAY4 font24b]
  /\ Wind.badge Sample.textsize 400 "MVFR" = [Text 325 15 "MVFR" GRAY1 font24b]
  /\ Wind.badge Sample.textsize 400 "N/A" = [Text 325 15 "N/A" GRAY1 font24b].
Proof.
  split; [| split].
  - apply (proj2 (proj2 (badge_boxed_unless_vfr_mvfr_or_na Sample.textsize 400 "IFR")));
      discriminate.
  - apply (proj1 (badge_boxed_unless_vfr_mvfr_or_na Sample.textsize 400 "MVFR")).
    right. reflexivity.
  - apply (proj1 (proj2 (badge_boxed_unless_vfr_mvfr_or_na Sample.textsize 400 "N/A"))).
    right. reflexivity.
Defined.

(** The unknown category of the code is "N/A" (lines 110 and 125, and
    the default branch of the sleep policy): its badge is the plain text
    "N/A", and the only rectangle of the whole layout is the header
    bar. *)
Lemma unknown_category_badge_is_plain :
  Wind.flightcategory (Wind.fallback "N/A" "N/A") = "N/A"%string
  /\ Wind.badge Sample.textsize 400 "N/A" = [Text 325 15 "N/A" GRAY1 font24b]
  /\ rectangles (drawn (Sample.layout_wind Wind.NoRawText) blank)
     = [Rectangle 0 0 400 65 GRAY4].
Proof. split; [| split]; reflexivity. Qed.

(** C4. On a call that gets past the check of the METAR object: the
    arrow, two polygons, is drawn when the wind speed is above 0 and not
    otherwise, and a wind direction that is not a number counts as 0 and
    does not hold the arrow back; the runway outline, the two dashes and
    the eight threshold marks are drawn in both cases. *)
Theorem arrow_drawn_by_speed_alone :
  forall (textsize : string -> font -> Z * Z) (float : string -> option Q)
         (cos_deg sin_deg : Z -> Q) (update_text : string)
         (SCREEN_WIDTH SCREEN_HEIGHT wind_speed_units : Z)
         (m : Wind.metar) (v : Wind.fields) (s : surface),
    let layout :=
      Wind.layout_wind textsize float cos_deg sin_deg update_text
        SCREEN_WIDTH SCREEN_HEIGHT wind_speed_units m in
    Wind.report m = Some v ->
    ((Wind.wind_speed float (Wind.wnspd v) <= 0)%Q ->
     polygons (drawn layout s) = [Wind.runway_outline SCREEN_WIDTH])
    /\ ((0 < Wind.wind_speed float (Wind.wnspd v))%Q ->
        polygons (drawn layout s)
        = Wind.arrow cos_deg sin_deg SCREEN_WIDTH
            (Wind.wind_direction (Wind.wndir v)) 85 50
          ++ [Wind.runway_outline SCREEN_WIDTH])
    /\ (Py.isdigit (Wind.wndir v) = false -> Wind.wind_direction (Wind.wndir v) = 0)
    /\ lines (drawn layout s)
       = Wind.centerline SCREEN_WIDTH ++ Wind.threshold SCREEN_WIDTH.
Proof.
  intros textsize float cos_deg sin_deg update_text W H units m v s layout Hv.
  subst layout.
  pose proof (WindFacts.polygons_drawn textsize float cos_deg sin_deg update_text
                W H units m v s Hv) as Hpoly.
  split; [| split; [| split]].
  - intros Hcalm. rewrite Hpoly.
    destruct (Qlt_le_dec 0 _) as [Hpos | _]; [| reflexivity].
    exfalso. apply (Qlt_irrefl 0). eapply Qlt_le_trans; eassumption.
  - intros Hpos. rewrite Hpoly.
    destruct (Qlt_le_dec 0 _) as [_ | Hcalm]; [reflexivity |].
    exfalso. apply (Qlt_irrefl 0). eapply Qlt_le_trans; eassumption.
  - intros Hdir. unfold Wind.wind_direction. rewrite Hdir, andb_false_r. reflexivity.
  - apply WindFacts.lines_drawn with (v := v). exact Hv.
Qed.

(** No report text: the speed is "0", and only the runway is drawn. *)
Lemma arrow_drawn_by_speed_alone_witness :
  polygons (drawn (Sample.layout_wind Wind.NoRawText) blank) = [Wind.runway_outline 400].
Proof.
  apply (proj1 (arrow_drawn_by_speed_alone Sample.textsize Sample.float
                  Sample.cos_deg Sample.sin_deg Sample.update_text 400 300 2
                  Wind.NoRawText (Wind.fallback "N/A" "N/A") blank eq_refl)).
  cbn. discriminate.
Defined.

(** The wind "VRB05KT": the direction is not available, the speed is 5,
    and the arrow is drawn, two dark polygons before the runway. *)
Lemma variable_wind_draws_arrow :
  Py.isdigit (Wind.decoded_wndir Sample.variable_wind) = false
  /\ map fill_of (polygons (drawn (Sample.layout_wind (Wind.Decodes Sample.variable_wind)) blank))
     = [GRAY3; GRAY3; GRAY4].
Proof. split; reflexivity. Qed.

(** C8. The marks of the runway are two dashes of the centre line and
    eight threshold marks, at offsets that mirror each other about the
    centre line; they are the lines of every call that gets past the
    check of the METAR object (a call that does not get past it draws
    the error text only). *)
Theorem runway_marks_two_dashes_eight_ticks :
  forall (textsize : string -> font -> Z * Z) (float : string -> option Q)
         (cos_deg sin_deg : Z -> Q) (update_text : string)
         (SCREEN_WIDTH SCREEN_HEIGHT wind_speed_units : Z),
    let cx := SCREEN_WIDTH / 2 in
    Wind.centerline SCREEN_WIDTH
    = [Line cx 182 cx 188 GRAY1 2; Line cx 192 cx 198 GRAY1 2]
    /\ Wind.threshold SCREEN_WIDTH
       = map (fun d => Line (cx + d) 227 (cx + d) 232 GRAY1 1) Wind.threshold_offsets
    /\ List.length Wind.threshold_offsets = 8%nat
    /\ map Z.opp Wind.threshold_offsets = rev Wind.threshold_offsets
    /\ (forall (m : Wind.metar) (v : Wind.fields) (s : surface),
          Wind.report m = Some v ->
          lines (drawn (Wind.layout_wind textsize float cos_deg sin_deg update_text
                          SCREEN_WIDTH SCREEN_HEIGHT wind_speed_units m) s)
          = Wind.centerline SCREEN_WIDTH ++ Wind.threshold SCREEN_WIDTH).
Proof.
  intros textsize float cos_deg sin_deg update_text W H units. cbv zeta.
  split; [apply WindFacts.centerline_two_dashes |].
  split; [reflexivity |]. split; [reflexivity |]. split; [reflexivity |].
  intros m v s Hv. apply WindFacts.lines_drawn with (v := v). exact Hv.
Qed.

(** The ten lines of a call with a report. *)
Lemma runway_marks_two_dashes_eight_ticks_witness :
  lines (drawn (Sample.layout_wind (Wind.Decodes Sample.variable_wind)) blank)
  = Wind.centerline 400 ++ Wind.threshold 400.
Proof.
  apply (proj2 (proj2 (proj2 (proj2
           (runway_marks_two_dashes_eight_ticks Sample.textsize Sample.float
              Sample.cos_deg Sample.sin_deg Sample.update_text 400 300 2))))
           (Wind.Decodes Sample.variable_wind) (Wind.of_decoded Sample.variable_wind) blank).
  reflexivity.
Defined.

(** A call with an empty or invalid METAR object returns at line 106:
    it draws the error text and nothing else, so no dash and no
    threshold mark. *)
Lemma invalid_metar_draws_no_marks :
  drawn (Sample.layout_wind Wind.Invalid) blank
  = [Text 10 100 "Error: Invalid METAR data" GRAY4 font24]
  /\ lines (drawn (Sample.layout_wind Wind.Invalid) blank) = []
  /\ polygons (drawn (Sample.layout_wind Wind.Invalid) blank) = [].
Proof. split; [| split]; reflexivity. Qed.

(** * Further properties *)

(** ** The relative wind angle, continued *)

Module AngleMore.
Import Angle.

(** Two angles of the interval that differ by whole turns are equal. *)
Lemma representative_unique (a b : Z) :
  -180 < a <= 180 -> -180 < b <= 180 -> (a - b) mod 360 = 0 -> a = b.
Proof.
  intros Ha Hb Hmod.
  apply Z.mod_divide in Hmod; [| lia].
  destruct Hmod as [c Hc]. lia.
Qed.

Lemma relative_angle_is (wind_direction heading r : Z) :
  -180 < r <= 180 ->
  (r - (wind_direction - heading)) mod 360 = 0 ->
  relative_angle_deg wind_direction heading = r.
Proof.
  intros Hr Hmod.
  apply representative_unique;
    [apply AngleFacts.relative_angle_range | exact Hr |].
  pose proof (AngleFacts.relative_angle_congruent wind_direction heading) as Hrel.
  apply Z.mod_divide in Hrel; [| lia]. apply Z.mod_divide in Hmod; [| lia].
  destruct Hrel as [c Hc]. destruct Hmod as [d Hd].
  apply Z.mod_divide; [lia |]. exists (c - d). lia.
Qed.

End AngleMore.

(** X1. The relative angle is the one integer of the interval from -180
    (excluded) to 180 (included) that differs from wind direction minus
    heading by whole turns: any [r] of the interval with that difference
    is the angle computed, so an angle already in the interval is left
    as it is. *)
Theorem relative_angle_is_the_representative :
  forall wind_direction heading r : Z,
    -180 < r <= 180 ->
    (r - (wind_direction - heading)) mod 360 = 0 ->
    Angle.relative_angle_deg wind_direction heading = r.
Proof.
  intros wind_direction heading r Hr Hmod.
  apply AngleMore.relative_angle_is; assumption.
Qed.

Lemma relative_angle_is_the_representative_witness :
  Angle.relative_angle_deg 20 180 = -160.
Proof.
  apply (relative_angle_is_the_representative 20 180 (-160)).
  - lia.
  - reflexivity.
Defined.

(** X2. Whole turns of the wind direction do not change the relative
    angle, in either direction and however many. *)
Theorem relative_angle_ignores_whole_turns :
  forall wind_direction heading k : Z,
    Angle.relative_angle_deg (wind_direction + 360 * k) heading
    = Angle.relative_angle_deg wind_direction heading.
Proof.
  intros wind_direction heading k.
  apply AngleMore.relative_angle_is.
  - apply AngleFacts.relative_angle_range.
  - pose proof (AngleFacts.relative_angle_congruent wind_direction heading) as Hrel.
    apply Z.mod_divide in Hrel; [| lia]. destruct Hrel as [c Hc].
    apply Z.mod_divide; [lia |]. exists (c - k). lia.
Qed.

(** ** The layout selector, continued *)

Module SelectorMore.
Import Selector Cycles SelectorFacts.

Local Open Scope string_scope.
Local Open Scope list_scope.
Local Open Scope Z_scope.

(** What one call of [cycle_layout] can do: nothing to the counters and
    the image, or one call of a routine of the list, counted when it
    returns. *)
Inductive effect (layout_list : list routine) (use_preferred : Z)
    (g : counters) (s : surface) : counters * surface * outcome -> Prop :=
| no_routine (s' : surface) (o : outcome) :
    image s' = image s ->
    effect layout_list use_preferred g s (g, s', o)
| routine_returns (r : routine) (s1 s' : surface) :
    In r layout_list ->
    image s1 = image s ->
    call r s1 = (s', Returned) ->
    effect layout_list use_preferred g s
      (if use_preferred =? 1
       then {| cycle_num := cycle_num g; pref_cycle := pref_cycle g + 1 |}
       else {| cycle_num := cycle_num g + 1; pref_cycle := pref_cycle g |},
       s', Returned)
| routine_raises (r : routine) (s1 s' : surface) (e : exn) :
    In r layout_list ->
    image s1 = image s ->
    call r s1 = (s', Raised e) ->
    effect layout_list use_preferred g s (g, s', Raised e).

Lemma cycle_preferred_effect (layout_list : list routine) (p : list Z)
    (g : counters) (s : surface) :
  effect layout_list 1 g s (cycle_preferred layout_list p g s).
Proof.
  unfold cycle_preferred. cbv zeta.
  destruct (item p (pref_cycle g mod len p)) as [i |]; [| constructor; reflexivity].
  destruct ((0 <=? i) && (i <? len layout_list)); [| constructor; reflexivity].
  destruct (item layout_list i) as [r |] eqn:Hr; [| constructor; reflexivity].
  destruct (call r (print (PreferredIndexInList i) s)) as [s2 [| e]] eqn:Hcall.
  - apply (routine_returns layout_list 1 g s r (print (PreferredIndexInList i) s) s2
             (item_In _ _ _ Hr) eq_refl Hcall).
  - apply (routine_raises layout_list 1 g s r (print (PreferredIndexInList i) s) s2 e
             (item_In _ _ _ Hr) eq_refl Hcall).
Qed.

Lemma cycle_all_effect (layout_list : list routine) (use_preferred : Z)
    (g : counters) (s : surface) :
  use_preferred <> 1 ->
  effect layout_list use_preferred g s (cycle_all layout_list g s).
Proof.
  intros Hall. unfold cycle_all.
  destruct (len layout_list =? 0); [constructor; reflexivity |]. cbv zeta.
  destruct (item layout_list (cycle_num g mod len layout_list)) as [r |] eqn:Hr;
    [| constructor; reflexivity].
  set (s1 := print (CycleIndex (cycle_num g mod len layout_list)) s).
  destruct (call r s1) as [s2 [| e]] eqn:Hcall.
  - pose proof (routine_returns layout_list use_preferred g s r s1 s2
                  (item_In _ _ _ Hr) eq_refl Hcall) as Heff.
    destruct (Z.eqb_spec use_preferred 1); [contradiction | exact Heff].
  - apply (routine_raises layout_list use_preferred g s r s1 s2 e
             (item_In _ _ _ Hr) eq_refl Hcall).
Qed.

Lemma cycle_layout_effect (layout_list : list routine) (prefs : string)
    (use_preferred : Z) (g : counters) (s : surface) :
  effect layout_list use_preferred g s
    (cycle_layout layout_list prefs use_preferred g s).
Proof.
  unfold cycle_layout.
  destruct (Z.eqb_spec use_preferred 1) as [-> | Hall].
  - destruct (p_layouts_lst prefs) as [[| i p] |]; try (constructor; reflexivity).
    apply cycle_preferred_effect.
  - apply cycle_all_effect. exact Hall.
Qed.

(** The preferred branch with every entry in range and routines that
    return. *)
Lemma preferred_step (layout_list : list routine) (prefs : string) (p : list Z)
    (g : counters) (s : surface) :
  p_layouts_lst prefs = Some p ->
  p <> [] ->
  Forall (fun i => i < len layout_list) p ->
  Forall returns layout_list ->
  exists i r,
    item p (pref_cycle g mod len p) = Some i
    /\ item layout_list i = Some r
    /\ cycle_layout layout_list prefs 1 g s
       = ({| cycle_num := cycle_num g; pref_cycle := pref_cycle g + 1 |},
          fst (call r (print (PreferredIndexInList i) s)), Returned).
Proof.
  intros Hp Hne Hin Hret.
  assert (Hlen : 0 < len p).
  { pose proof (len_nonneg p). pose proof (len_zero p) as Hz.
    destruct (Z.eq_dec (len p) 0) as [H0 | H0]; [| lia].
    exfalso. apply Hne. tauto. }
  destruct (item_in_range p (pref_cycle g mod len p)) as [i Hi].
  { apply Z.mod_pos_bound. exact Hlen. }
  assert (Hrange : 0 <= i < len layout_list).
  { destruct (p_layouts_lst_some prefs p Hp) as (_ & _ & Hdigits).
    rewrite Forall_forall in Hdigits, Hin.
    pose proof (item_In _ _ _ Hi) as Hmem.
    specialize (Hdigits i Hmem). specialize (Hin i Hmem). cbn in Hdigits. lia. }
  destruct (item_in_range layout_list i Hrange) as [r Hr].
  exists i, r. split; [exact Hi | split; [exact Hr |]].
  unfold cycle_layout. cbn. rewrite Hp.
  destruct p as [| i0 p']; [contradiction |].
  apply cycle_preferred_in_range; try assumption.
  rewrite Forall_forall in Hret. apply Hret. eapply item_In. exact Hr.
Qed.

Lemma counters_after_preferred (layout_list : list routine) (prefs : string)
    (p : list Z) (fresh : nat -> surface) (g0 : counters) (n : nat) :
  p_layouts_lst prefs = Some p ->
  p <> [] ->
  Forall (fun i => i < len layout_list) p ->
  Forall returns layout_list ->
  counters_after layout_list prefs 1 fresh g0 n
  = {| cycle_num := cycle_num g0; pref_cycle := pref_cycle g0 + Z.of_nat n |}.
Proof.
  intros Hp Hne Hin Hret. induction n as [| k IH].
  - cbn. destruct g0. cbn. f_equal. lia.
  - cbn [counters_after]. rewrite IH.
    destruct (preferred_step layout_list prefs p
                {| cycle_num := cycle_num g0; pref_cycle := pref_cycle g0 + Z.of_nat k |}
                (fresh k) Hp Hne Hin Hret) as (i & r & _ & _ & ->).
    cbn. f_equal. lia.
Qed.

End SelectorMore.

(** X3. Preferred layouts that are all digits below the number of
    routines, with routines that return: from counters at 0, call k runs
    the routine named by entry k mod the number of entries, leaves
    [pref_cycle] at k + 1 and never touches [cycle_num]. *)
Theorem preferred_runs_entry_k_mod_length :
  forall (layout_list : list routine) (preferred_layouts : string) (p : list Z)
         (fresh : nat -> surface) (k : nat),
    Selector.p_layouts_lst preferred_layouts = Some p ->
    p <> [] ->
    Forall (fun i => i < Selector.len layout_list) p ->
    Forall Cycles.returns layout_list ->
    exists (layout_index_to_use : Z) (cycle_pick : routine),
      Selector.item p (Z.of_nat k mod Selector.len p) = Some layout_index_to_use
      /\ Selector.item layout_list layout_index_to_use = Some cycle_pick
      /\ Cycles.kth_call layout_list preferred_layouts 1 fresh Selector.initial k
         = ({| Selector.cycle_num := 0; Selector.pref_cycle := Z.of_nat k + 1 |},
            fst (call cycle_pick
                   (print (PreferredIndexInList layout_index_to_use) (fresh k))),
            Returned).
Proof.
  intros layout_list prefs p fresh k Hp Hne Hin Hret.
  unfold Cycles.kth_call.
  rewrite (SelectorMore.counters_after_preferred layout_list prefs p) by assumption.
  destruct (SelectorMore.preferred_step layout_list prefs p
              {| Selector.cycle_num := Selector.cycle_num Selector.initial;
                 Selector.pref_cycle :=
                   Selector.pref_cycle Selector.initial + Z.of_nat k |}
              (fresh k) Hp Hne Hin Hret) as (i & r & Hi & Hr & Hcall).
  cbn [Selector.cycle_num Selector.pref_cycle Selector.initial] in *.
  rewrite Z.add_0_l in *.
  exists i, r. split; [exact Hi | split; [exact Hr | exact Hcall]].
Qed.

Lemma preferred_runs_entry_k_mod_length_witness :
  exists (layout_index_to_use : Z) (cycle_pick : routine),
    Selector.item [2; 0; 1] (Z.of_nat 4 mod Selector.len [2; 0; 1])
    = Some layout_index_to_use
    /\ Selector.item [Sample.stamp 0; Sample.stamp 1; Sample.stamp 2] layout_index_to_use
       = Some cycle_pick
    /\ Cycles.kth_call [Sample.stamp 0; Sample.stamp 1; Sample.stamp 2] "201" 1
         (fun _ => blank) Selector.initial 4
       = ({| Selector.cycle_num := 0; Selector.pref_cycle := Z.of_nat 4 + 1 |},
          fst (call cycle_pick (print (PreferredIndexInList layout_index_to_use) blank)),
          Returned).
Proof.
  apply (preferred_runs_entry_k_mod_length
           [Sample.stamp 0; Sample.stamp 1; Sample.stamp 2] "201" [2; 0; 1]
           (fun _ => blank) 4).
  - reflexivity.
  - discriminate.
  - repeat constructor.
  - repeat constructor.
Defined.



(** X5. One call of [cycle_layout] moves at most one counter, by one
    and upwards: [pref_cycle] in the preferred mode, [cycle_num]
    otherwise; the other counter keeps its value. This holds for every
    list of routines, whether they return or raise. *)
Theorem cycle_layout_moves_one_counter_by_one :
  forall (layout_list : list routine) (preferred_layouts : string)
         (use_preferred : Z) (g : Selector.counters) (s : surface),
    let g' :=
      fst (fst (Selector.cycle_layout layout_list preferred_layouts use_preferred g s)) in
    g' = g
    \/ (use_preferred = 1
        /\ g' = {| Selector.cycle_num := Selector.cycle_num g;
                   Selector.pref_cycle := Selector.pref_cycle g + 1 |})
    \/ (use_preferred <> 1
        /\ g' = {| Selector.cycle_num := Selector.cycle_num g + 1;
                   Selector.pref_cycle := Selector.pref_cycle g |}).
Proof.
  intros layout_list prefs up g s. cbv zeta.
  pose proof (SelectorMore.cycle_layout_effect layout_list prefs up g s) as Heff.
  remember (Selector.cycle_layout layout_list prefs up g s) as res eqn:Hres.
  destruct Heff as [s' o _ | r s1 s' _ _ _ | r s1 s' e _ _ _]; cbn.
  - left. reflexivity.
  - right. destruct (Z.eqb_spec up 1) as [H1 | H1]; [left | right]; split;
      assumption || reflexivity.
  - left. reflexivity.
Qed.

(** X6. A call of [cycle_layout] that raises, from the selection or
    from the routine it runs, leaves both counters as they were: the
    next call selects the same layout again. *)
Theorem cycle_layout_raise_keeps_counters :
  forall (layout_list : list routine) (preferred_layouts : string)
         (use_preferred : Z) (g : Selector.counters) (s : surface) (e : exn),
    snd (Selector.cycle_layout layout_list preferred_layouts use_preferred g s)
    = Raised e ->
    fst (fst (Selector.cycle_layout layout_list preferred_layouts use_preferred g s)) = g.
Proof.
  intros layout_list prefs up g s e.
  pose proof (SelectorMore.cycle_layout_effect layout_list prefs up g s) as Heff.
  remember (Selector.cycle_layout layout_list prefs up g s) as res eqn:Hres.
  destruct Heff as [s' o _ | r s1 s' _ _ _ | r s1 s' e' _ _ _]; cbn;
    intros Hraise; try reflexivity; discriminate.
Qed.

(** A routine that draws and raises: the counter stays at 0. *)
Lemma cycle_layout_raise_keeps_counters_witness :
  fst (fst (Selector.cycle_layout [SampleMore.failing 7] "na" 0 Selector.initial blank))
  = Selector.initial.
Proof.
  apply (cycle_layout_raise_keeps_counters [SampleMore.failing 7] "na" 0
           Selector.initial blank ValueError).
  reflexivity.
Defined.

(** X7. [cycle_layout] draws nothing of its own: after a call the
    image is the one it was given, or the one a routine of the list
    left when called on that image. *)
Theorem cycle_layout_draws_nothing_itself :
  forall (layout_list : list routine) (preferred_layouts : string)
         (use_preferred : Z) (g : Selector.counters) (s : surface),
    let s' :=
      snd (fst (Selector.cycle_layout layout_list preferred_layouts use_preferred g s)) in
    image s' = image s
    \/ exists (r : routine) (s1 : surface),
         In r layout_list /\ image s1 = image s /\ s' = fst (call r s1).
Proof.
  intros layout_list prefs up g s. cbv zeta.
  pose proof (SelectorMore.cycle_layout_effect layout_list prefs up g s) as Heff.
  remember (Selector.cycle_layout layout_list prefs up g s) as res eqn:Hres.
  destruct Heff as [s' o Himg | r s1 s' Hin Himg Hcall | r s1 s' e Hin Himg Hcall]; cbn.
  - left. exact Himg.
  - right. exists r, s1. rewrite Hcall. auto.
  - right. exists r, s1. rewrite Hcall. auto.
Qed.

(** ** The arguments and [main] *)

Module ProgramFacts.
Import Program.

Local Open Scope string_scope.
Local Open Scope list_scope.
Local Open Scope Z_scope.

Lemma argv_item_some (argv : list string) (i : nat) (a : string) :
  argv_item argv i = inr a -> nth_error argv i = Some a.
Proof.
  unfold argv_item. destruct (nth_error argv i); [intros [= ->]; reflexivity | discriminate].
Qed.

Lemma argv_item_past_end (argv : list string) (i : nat) :
  (List.length argv <= i)%nat -> argv_item argv i = inl ArgIndexError.
Proof.
  intros Hlen. unfold argv_item.
  destruct (nth_error argv i) eqn:Hnth; [| reflexivity].
  assert (nth_error argv i <> None) as Hsome by congruence.
  apply nth_error_Some in Hsome. lia.
Qed.

(** One step of the reading of the arguments: the outermost one. *)
Ltac step_args :=
  match goal with
  | |- exists _, match ?x with inl _ => _ | inr _ => _ end = _ => destruct x eqn:?
  | |- match ?x with inl _ => _ | inr _ => _ end = _ -> _ => destruct x eqn:?
  end.

End ProgramFacts.

(** X8. Started with exactly ten entries in [sys.argv] (the script and
    nine arguments), the reading of the arguments does not get through:
    the test of line 125 lets ten entries in, and line 136 reads an
    eleventh. It raises [IndexError] there, or [ValueError] before that
    on an argument that is no integer. *)
Theorem ten_argv_entries_raise :
  forall (int : string -> option Z) (from_file : Program.settings) (argv : list string),
    List.length argv = 10%nat ->
    exists e : Program.startup_exn, Program.process_args int from_file argv = inl e.
Proof.
  intros int from_file argv Hlen. unfold Program.process_args. rewrite Hlen. cbn [Nat.leb].
  repeat (ProgramFacts.step_args; [eexists; reflexivity |]).
  match goal with
  | H : Program.argv_item argv 10 = inr _ |- _ =>
      rewrite ProgramFacts.argv_item_past_end in H by lia; discriminate H
  end.
Qed.

Lemma ten_argv_entries_raise_witness :
  exists e : Program.startup_exn,
    Program.process_args SampleMore.int SampleMore.from_file
      ["metar_main.py"; "ksfo"; "-2"; "0"; "1"; "2"; "0"; "0"; "0"; "0"]%string = inl e.
Proof.
  apply (ten_argv_entries_raise SampleMore.int SampleMore.from_file
           ["metar_main.py"; "ksfo"; "-2"; "0"; "1"; "2"; "0"; "0"; "0"; "0"]%string).
  reflexivity.
Defined.

(** X9. When the reading of the arguments gets through, [use_preferred]
    is 1 only if [sys.argv] has an eleventh entry other than "na", which
    is then the preferred layouts; in every other case it is 0, also
    when the settings file sets it to 1. *)
Theorem use_preferred_only_from_eleventh_argument :
  forall (int : string -> option Z) (from_file st : Program.settings)
         (argv : list string),
    Program.process_args int from_file argv = inr st ->
    (Program.use_preferred st = 1
     /\ nth_error argv 10 = Some (Program.preferred_layouts st)
     /\ Program.preferred_layouts st <> "na"%string)
    \/ (Program.use_preferred st = 0
        /\ ((List.length argv < 10)%nat
            \/ nth_error argv 10 = Some "na"%string)).
Proof.
  intros int from_file st argv. unfold Program.process_args.
  destruct (Nat.leb_spec 10 (List.length argv)) as [Hlong | Hshort].
  - repeat (ProgramFacts.step_args; [discriminate |]).
    intros [= <-]. cbn.
    match goal with
    | H : Program.argv_item argv 10 = inr ?a |- _ =>
        apply ProgramFacts.argv_item_some in H;
        destruct (String.eqb_spec a "na") as [-> | Hna]
    end.
    + right. split; [reflexivity | right; assumption].
    + left. split; [reflexivity | split; assumption].
  - intros [= <-]. cbn. right. split; [reflexivity | left; exact Hshort].
Qed.

Lemma use_preferred_only_from_eleventh_argument_witness :
  (Program.use_preferred SampleMore.parsed = 1
   /\ nth_error SampleMore.argv 10 = Some (Program.preferred_layouts SampleMore.parsed)
   /\ Program.preferred_layouts SampleMore.parsed <> "na"%string)
  \/ (Program.use_preferred SampleMore.parsed = 0
      /\ ((List.length SampleMore.argv < 10)%nat
          \/ nth_error SampleMore.argv 10 = Some "na"%string)).
Proof.
  apply (use_preferred_only_from_eleventh_argument SampleMore.int SampleMore.from_file
           SampleMore.parsed SampleMore.argv).
  reflexivity.
Defined.

(** X10. A display format other than -1 and -2 that is no position of
    the list of layouts, negative ones included, runs no routine:
    [main] draws the one text "Error: Invalid Layout" with the number,
    leaves the counters alone and returns. *)
Theorem main_invalid_layout_draws_error_only :
  forall (pick : nat) (layout_list : list routine) (st : Program.settings)
         (g : Selector.counters) (s : surface),
    Program.use_disp_format st <> -1 ->
    Program.use_disp_format st <> -2 ->
    ~ (0 <= Program.use_disp_format st < Selector.len layout_list) ->
    Program.main pick layout_list st g s
    = (g,
       draw_all [Text 10 100
                   ("Error: Invalid Layout " ++ Py.str (Program.use_disp_format st))
                   GRAY4 font24] s,
       Returned).
Proof.
  intros pick layout_list st g s Hrandom Hcycle Hout. unfold Program.main.
  destruct (Z.eqb_spec (Program.use_disp_format st) (-1)); [contradiction |].
  destruct (Z.eqb_spec (Program.use_disp_format st) (-2)); [contradiction |].
  destruct (Z.leb_spec 0 (Program.use_disp_format st));
    destruct (Z.ltb_spec (Program.use_disp_format st) (Selector.len layout_list));
    cbn [andb]; try reflexivity; lia.
Qed.

(** The display format -3 with the one layout of the repository. *)
Lemma main_invalid_layout_draws_error_only_witness :
  Program.main 0 [Sample.layout_wind Wind.NoRawText] (SampleMore.with_format (-3))
    Selector.initial blank
  = (Selector.initial,
     draw_all [Text 10 100 "Error: Invalid Layout -3" GRAY4 font24] blank,
     Returned).
Proof.
  apply (main_invalid_layout_draws_error_only 0 [Sample.layout_wind Wind.NoRawText]
           (SampleMore.with_format (-3)) Selector.initial blank); cbn; lia.
Defined.

(** X11. A display format that is a position of the list of layouts
    runs the routine at that position on the surface as it is, and
    nothing else: the outcome is the routine's own and the counters
    keep their values. *)
Theorem main_fixed_layout_runs_that_routine :
  forall (pick : nat) (layout_list : list routine) (st : Program.settings)
         (g : Selector.counters) (s : surface),
    0 <= Program.use_disp_format st < Selector.len layout_list ->
    exists layout : routine,
      Selector.item layout_list (Program.use_disp_format st) = Some layout
      /\ Program.main pick layout_list st g s
         = (g, fst (call layout s), snd (call layout s)).
Proof.
  intros pick layout_list st g s Hin.
  destruct (SelectorFacts.item_in_range layout_list _ Hin) as [r Hr].
  exists r. split; [exact Hr |]. unfold Program.main.
  destruct (Z.eqb_spec (Program.use_disp_format st) (-1)); [lia |].
  destruct (Z.eqb_spec (Program.use_disp_format st) (-2)); [lia |].
  destruct (Z.leb_spec 0 (Program.use_disp_format st));
    destruct (Z.ltb_spec (Program.use_disp_format st) (Selector.len layout_list));
    try lia.
  cbn [andb]. rewrite Hr. destruct (call r s). reflexivity.
Qed.

Lemma main_fixed_layout_runs_that_routine_witness :
  exists layout : routine,
    Selector.item [Sample.stamp 0; Sample.stamp 1] 1 = Some layout
    /\ Program.main 0 [Sample.stamp 0; Sample.stamp 1] (SampleMore.with_format 1)
         Selector.initial blank
       = (Selector.initial, fst (call layout blank), snd (call layout blank)).
Proof.
  apply (main_fixed_layout_runs_that_routine 0 [Sample.stamp 0; Sample.stamp 1]
           (SampleMore.with_format 1) Selector.initial blank).
  cbn. lia.
Defined.

(** X12. Only the cycling mode, display format -2, moves the counters
    of the selector: with any other display format [main] hands them
    back as they were. *)
Theorem main_keeps_counters_unless_cycling :
  forall (pick : nat) (layout_list : list routine) (st : Program.settings)
         (g : Selector.counters) (s : surface),
    Program.use_disp_format st <> -2 ->
    fst (fst (Program.main pick layout_list st g s)) = g.
Proof.
  intros pick layout_list st g s Hcycle. unfold Program.main.
  destruct (Program.use_disp_format st =? -1).
  { destruct (Selector.random_layout pick layout_list s). reflexivity. }
  destruct (Z.eqb_spec (Program.use_disp_format st) (-2)); [contradiction |].
  destruct ((0 <=? _) && (_ <? _)); [| reflexivity].
  destruct (Selector.item layout_list _) as [r |]; [| reflexivity].
  destruct (call r s). reflexivity.
Qed.

Lemma main_keeps_counters_unless_cycling_witness :
  fst (fst (Program.main 0 [Sample.stamp 0] (SampleMore.with_format (-1))
              {| Selector.cycle_num := 3; Selector.pref_cycle := 5 |} blank))
  = {| Selector.cycle_num := 3; Selector.pref_cycle := 5 |}.
Proof.
  apply (main_keeps_counters_unless_cycling 0 [Sample.stamp 0]
           (SampleMore.with_format (-1))).
  cbn. lia.
Defined.

(** ** The wind layout, continued *)

Module WindMore.
Import Wind.

Local Open Scope string_scope.
Local Open Scope list_scope.
Local Open Scope Z_scope.

(** The text and the height of a drawing call. *)
Definition text_of (o : draw_op) : string :=
  match o with
  | Text _ _ t _ _ => t
  | _ => ""
  end.

Definition y_of (o : draw_op) : Z :=
  match o with
  | Rectangle _ y _ _ _ | Text _ y _ _ _ | Line _ y _ _ _ _ => y
  | Polygon _ _ => 0
  end.

(** A point of the runway: between the far edge at 178 and the near
    edge at 232, and no further from the centre line than the side of
    the trapezoid, which goes from 25 at the far edge to 42 at the near
    edge. *)
Definition in_runway (cx x y : Z) : Prop :=
  178 <= y <= 232 /\ 54 * Z.abs (x - cx) <= 54 * 25 + 17 * (y - 178).

Definition line_in_runway (cx : Z) (o : draw_op) : Prop :=
  match o with
  | Line x0 y0 x1 y1 _ _ => in_runway cx x0 y0 /\ in_runway cx x1 y1
  | _ => False
  end.

(** Slices of a string. *)
Lemma substring_split (n m : nat) (s : string) :
  (substring 0 n s ++ substring n m s)%string = substring 0 (n + m) s.
Proof.
  revert s. induction n as [| n IH]; intros s.
  - cbn [Nat.add]. destruct m, s; reflexivity.
  - destruct s as [| c s].
    + destruct m; reflexivity.
    + cbn. rewrite IH. reflexivity.
Qed.

Lemma substring_length_le (a n : nat) (s : string) :
  (String.length (substring a n s) <= n)%nat.
Proof.
  revert a s. induction n as [| n IH]; intros a s.
  - revert s. induction a as [| a IHa]; intros [| c s]; cbn; try lia. apply IHa.
  - revert s. induction a as [| a IHa]; intros [| c s]; cbn; try lia.
    + specialize (IH 0%nat s). lia.
    + apply IHa.
Qed.

Lemma substring_short (n m : nat) (s : string) :
  (String.length s <= n)%nat -> substring 0 (n + m) s = substring 0 n s.
Proof.
  revert s. induction n as [| n IH]; intros [| c s] Hlen; cbn in *; try lia.
  - destruct m; reflexivity.
  - destruct m; reflexivity.
  - rewrite IH by lia. reflexivity.
Qed.

Section Pieces.

Variable textsize : string -> font -> Z * Z.
Variable float : string -> option Q.
Variables cos_deg sin_deg : Z -> Q.
Variable update_text : string.
Variables SCREEN_WIDTH SCREEN_HEIGHT wind_speed_units : Z.

Let the_layout :=
  layout_wind textsize float cos_deg sin_deg update_text SCREEN_WIDTH SCREEN_HEIGHT
    wind_speed_units.

Let the_panels :=
  panels textsize float cos_deg sin_deg update_text SCREEN_WIDTH SCREEN_HEIGHT
    wind_speed_units.

(** The image after a call: what it was, then the message, then the
    panels. *)
Lemma image_layout_wind (m : metar) (s : surface) :
  image (fst (call (the_layout m) s))
  = image s ++ notice m ++ match report m with
                           | Some v => the_panels v
                           | None => []
                           end.
Proof.
  unfold the_layout, layout_wind, layout_wind_body, report, notice, the_panels.
  cbn [call].
  destruct m; unfold read_metar, draw_all, print, blank; cbn [fst snd image app].
  - reflexivity.
  - rewrite <- app_assoc. reflexivity.
  - reflexivity.
  - rewrite <- app_assoc. reflexivity.
Qed.

(** The speeds that count as no wind. *)
Lemma wind_speed_calm (decoded_wnspd : string) :
  decoded_wnspd = "" \/ decoded_wnspd = "Calm" \/ float decoded_wnspd = None ->
  wind_speed float decoded_wnspd = 0%Q.
Proof.
  unfold wind_speed. intros [-> | [-> | Hnone]]; try reflexivity.
  rewrite Hnone. destruct (_ && _); reflexivity.
Qed.

End Pieces.

End WindMore.

(** X13. Of the weather text, the layout shows the first 50 characters
    and no more, under the heading "Weather:" and before "Clouds:", in
    one or two lines of at most 25 characters each. *)
Theorem weather_text_first_fifty_characters :
  forall v : Wind.fields,
    exists (weather : list string) (rest : list string),
      map WindMore.text_of (Wind.left_column v)
      = "Weather:"%string :: weather ++ "Clouds:"%string :: rest
      /\ String.concat "" weather = Py.prefix 50 (Wind.descript v)
      /\ Forall (fun line => (String.length line <= 25)%nat) weather
      /\ (List.length weather <= 2)%nat.
Proof.
  intros v. unfold Wind.left_column. cbv zeta.
  rewrite !map_app. cbn [map WindMore.text_of].
  destruct (Nat.ltb_spec 25 (String.length (Wind.descript v))) as [Hlong | Hshort].
  - exists [Py.prefix 25 (Wind.descript v); Py.slice 25 (25 * 2) (Wind.descript v)].
    eexists. split; [reflexivity |]. split; [| split].
    + unfold Py.prefix, Py.slice. cbn [String.concat Nat.mul Nat.add Nat.sub].
      change (25 * 2 - 25)%nat with 25%nat.
      cbn [append]. apply (WindMore.substring_split 25 25).
    + apply Forall_cons; [apply WindMore.substring_length_le |].
      apply Forall_cons; [| apply Forall_nil].
      unfold Py.slice. change (25 * 2 - 25)%nat with 25%nat.
      apply WindMore.substring_length_le.
    + cbn. lia.
  - exists [Py.prefix 25 (Wind.descript v)].
    eexists. split; [reflexivity |]. split; [| split].
    + unfold Py.prefix. cbn [String.concat]. symmetry.
      apply (WindMore.substring_short 25 25). exact Hshort.
    + apply Forall_cons; [apply WindMore.substring_length_le | apply Forall_nil].
    + cbn. lia.
Qed.

(** X14. The texts of the left column stand one below the other: their
    heights grow strictly from the first to the last, whatever the
    length of the weather text and the number of cloud layers, of which
    no more than two are shown. *)
Theorem left_column_heights_increase :
  forall v : Wind.fields,
    StronglySorted Z.lt (map WindMore.y_of (Wind.left_column v)).
Proof.
  intros v. unfold Wind.left_column. cbv zeta.
  destruct (25 <? String.length (Wind.descript v))%nat;
    destruct (Wind.cloud_layers v) as [| [t1 h1] [| [t2 h2] rest]];
    cbn [map app firstn Wind.cloud_lines WindMore.y_of Wind.LEFT_MARGIN];
    repeat (constructor; [| repeat (constructor; [lia |]); constructor]);
    constructor.
Qed.


(** X16. A wind speed that is empty, "Calm", or a text that [float]
    does not read, counts as 0: the only polygon drawn is the runway,
    without arrow, whatever the wind direction. *)
Theorem calm_or_unreadable_speed_draws_no_arrow :
  forall (textsize : string -> font -> Z * Z) (float : string -> option Q)
         (cos_deg sin_deg : Z -> Q) (update_text : string)
         (SCREEN_WIDTH SCREEN_HEIGHT wind_speed_units : Z)
         (m : Wind.metar) (v : Wind.fields) (s : surface),
    Wind.report m = Some v ->
    Wind.wnspd v = ""%string \/ Wind.wnspd v = "Calm"%string
    \/ float (Wind.wnspd v) = None ->
    polygons (drawn (Wind.layout_wind textsize float cos_deg sin_deg update_text
                       SCREEN_WIDTH SCREEN_HEIGHT wind_speed_units m) s)
    = [Wind.runway_outline SCREEN_WIDTH].
Proof.
  intros textsize float cos_deg sin_deg update_text W H units m v s Hv Hcalm.
  rewrite (WindFacts.polygons_drawn textsize float cos_deg sin_deg update_text
             W H units m v s Hv).
  destruct (Qlt_le_dec 0 _) as [Hpos | _]; [| reflexivity].
  rewrite (WindMore.wind_speed_calm float _ Hcalm) in Hpos.
  exfalso. exact (Qlt_irrefl 0 Hpos).
Qed.

Lemma calm_or_unreadable_speed_draws_no_arrow_witness :
  polygons (drawn (Sample.layout_wind (Wind.Decodes SampleMore.calm_wind)) blank)
  = [Wind.runway_outline 400].
Proof.
  apply (calm_or_unreadable_speed_draws_no_arrow Sample.textsize Sample.float
           Sample.cos_deg Sample.sin_deg Sample.update_text 400 300 2
           (Wind.Decodes SampleMore.calm_wind) (Wind.of_decoded SampleMore.calm_wind)
           blank eq_refl).
  right. left. reflexivity.
Defined.

(** X17. Every mark of the runway lies on the runway: both ends of the
    two dashes and of the eight threshold marks are inside the
    trapezoid of the outline, for every width of the screen. *)
Theorem runway_marks_lie_on_the_runway :
  forall SCREEN_WIDTH : Z,
    let cx := SCREEN_WIDTH / 2 in
    Wind.runway_outline SCREEN_WIDTH
    = Polygon [(cx - 42, 232); (cx - 25, 178); (cx + 25, 178); (cx + 42, 232)] GRAY4
    /\ Forall (WindMore.line_in_runway cx)
         (Wind.centerline SCREEN_WIDTH ++ Wind.threshold SCREEN_WIDTH).
Proof.
  intros W. cbv zeta. split; [reflexivity |].
  rewrite WindFacts.centerline_two_dashes, WindFacts.threshold_eight_marks.
  unfold Wind.threshold_offsets. cbn [map app].
  set (cx := W / 2).
  repeat (apply Forall_cons;
          [unfold WindMore.line_in_runway, WindMore.in_runway; lia |]).
  apply Forall_nil.
Qed.

(** ** The utility routines *)

(** X18. [center_line_pil] leaves the same room on both sides of the
    text, within one pixel: twice the coordinate differs from the room
    left by the text by at most 1, the coordinate is not negative when
    the text fits, and not positive when it does not. *)
Theorem center_line_pil_centres :
  forall (textsize : string -> font -> Z * Z) (width : Z) (text : string) (f : font),
    let w := fst (textsize text f) in
    let x := Util.center_line_pil textsize width text f in
    (w <= width -> 0 <= x /\ 2 * x <= width - w <= 2 * x + 1)
    /\ (width <= w -> x <= 0 /\ 2 * x - 1 <= width - w <= 2 * x).
Proof.
  intros textsize width text f. cbv zeta. unfold Util.center_line_pil.
  destruct (textsize text f) as [w h]. cbn [fst].
  unfold Py.int. cbn [Qnum Qden Qdiv Qmult Qinv inject_Z].
  replace ((width - w) * 1) with (width - w) by lia.
  change (Z.pos (1 * 2)) with 2.
  pose proof (Z.quot_rem' (width - w) 2) as Hqr.
  split; intros Hfit.
  - pose proof (Z.rem_bound_pos (width - w) 2 ltac:(lia) ltac:(lia)) as Hrem.
    revert Hqr Hrem.
    generalize (Z.quot (width - w) 2) (Z.rem (width - w) 2). intros q r Hqr Hrem. lia.
  - pose proof (Z.rem_bound_abs (width - w) 2 ltac:(lia)) as Hrem.
    pose proof (Z.rem_nonpos (width - w) 2 ltac:(lia) ltac:(lia)) as Hneg.
    revert Hqr Hrem Hneg.
    generalize (Z.quot (width - w) 2) (Z.rem (width - w) 2). intros q r Hqr Hrem Hneg.
    lia.
Qed.

Lemma center_line_pil_centres_witness :
  0 <= Util.center_line_pil Sample.textsize 400 "KSFO" font24
  /\ 2 * Util.center_line_pil Sample.textsize 400 "KSFO" font24
     <= 400 - fst (Sample.textsize "KSFO" font24)
     <= 2 * Util.center_line_pil Sample.textsize 400 "KSFO" font24 + 1.
Proof.
  apply (proj1 (center_line_pil_centres Sample.textsize 400 "KSFO" font24)).
  cbn. lia.
Defined.

(** ** The sleep policy, continued *)

(** X19. The loop sleeps for the interval of the settings when it is
    not 0, and otherwise for one of four durations, between ten minutes
    and one hour, whatever text the flight category is. *)
Theorem sleep_interval_override_or_ten_minutes_to_an_hour :
  forall (interval : Z) (flightcategory : string),
    (interval <> 0 /\ Main.sleep_interval interval flightcategory = interval)
    \/ (interval = 0
        /\ In (Main.sleep_interval interval flightcategory) [3600; 1800; 1200; 600]
        /\ 600 <= Main.sleep_interval interval flightcategory <= 3600).
Proof.
  intros interval fc. unfold Main.sleep_interval.
  destruct (Z.eqb_spec interval 0) as [-> | Hne]; cbn [negb].
  - right. split; [reflexivity |].
    destruct (String.eqb fc "VFR"); [cbn; split; [tauto | lia] |].
    destruct (String.eqb fc "MVFR"); [cbn; split; [tauto | lia] |].
    destruct (String.eqb fc "IFR"); [cbn; split; [tauto | lia] |].
    destruct (String.eqb fc "LIFR"); cbn; split; (tauto || lia).
  - left. split; [exact Hne | reflexivity].
Qed.

(** ** The order of the drawing calls *)

Module WindOrder.
Import Wind.

Local Open Scope string_scope.
Local Open Scope list_scope.
Local Open Scope Z_scope.

Section Pieces.

Variable textsize : string -> font -> Z * Z.
Variable float : string -> option Q.
Variables cos_deg sin_deg : Z -> Q.
Variable update_text : string.
Variables SCREEN_WIDTH SCREEN_HEIGHT wind_speed_units : Z.

(** What is drawn before the runway outline, and after it. *)
Definition before_runway (m : metar) (v : fields) : list draw_op :=
  notice m ++ header textsize SCREEN_WIDTH v ++ wind_info float wind_speed_units v
  ++ left_column v ++ right_column SCREEN_WIDTH v
  ++ (if Qlt_le_dec 0 (wind_speed float (wnspd v))
      then arrow cos_deg sin_deg SCREEN_WIDTH (wind_direction (wndir v)) 85 50
      else []).

Definition after_runway : list draw_op :=
  (centerline SCREEN_WIDTH ++ runway_label textsize SCREEN_WIDTH :: threshold SCREEN_WIDTH)
  ++ footer textsize update_text SCREEN_HEIGHT.

Lemma drawn_around_runway (m : metar) (v : fields) (s : surface) :
  report m = Some v ->
  drawn (layout_wind textsize float cos_deg sin_deg update_text SCREEN_WIDTH
           SCREEN_HEIGHT wind_speed_units m) s
  = before_runway m v ++ runway_outline SCREEN_WIDTH :: after_runway.
Proof.
  intros Hv. rewrite WindFacts.drawn_layout_wind, Hv.
  unfold before_runway, after_runway, panels, visualization, runway. cbv zeta.
  rewrite <- !app_assoc. cbn [app]. reflexivity.
Qed.

Lemma lines_before_runway (m : metar) (v : fields) : lines (before_runway m v) = [].
Proof.
  unfold before_runway, lines. rewrite !filter_app.
  fold (lines (notice m)). fold (lines (header textsize SCREEN_WIDTH v)).
  fold (lines (wind_info float wind_speed_units v)). fold (lines (left_column v)).
  fold (lines (right_column SCREEN_WIDTH v)).
  rewrite (WindFacts.plain_lines _ (WindFacts.plain_notice m)),
    (WindFacts.plain_lines _ (WindFacts.plain_header textsize SCREEN_WIDTH v)),
    (WindFacts.plain_lines _ (WindFacts.plain_wind_info float wind_speed_units v)),
    (WindFacts.plain_lines _ (WindFacts.plain_left_column v)),
    (WindFacts.plain_lines _ (WindFacts.plain_right_column SCREEN_WIDTH v)).
  destruct (Qlt_le_dec 0 _); reflexivity.
Qed.

Lemma polygons_after_runway : polygons after_runway = [].
Proof.
  unfold after_runway, polygons. rewrite !filter_app.
  fold (polygons (footer textsize update_text SCREEN_HEIGHT)).
  rewrite (WindFacts.plain_polygons _
             (WindFacts.plain_footer textsize update_text SCREEN_HEIGHT)).
  rewrite WindFacts.centerline_two_dashes.
  pose proof (WindFacts.runway_label_is_text textsize SCREEN_WIDTH) as Hlabel.
  destruct (runway_label textsize SCREEN_WIDTH); try discriminate.
  reflexivity.
Qed.

End Pieces.

End WindOrder.

(** X20. On a call that gets past the check of the METAR object the
    runway outline is drawn once, after every other polygon and before
    every line: the arrow, when there is one, lies under the runway,
    and the dashes and threshold marks lie on top of it. *)
Theorem runway_over_arrow_under_marks :
  forall (textsize : string -> font -> Z * Z) (float : string -> option Q)
         (cos_deg sin_deg : Z -> Q) (update_text : string)
         (SCREEN_WIDTH SCREEN_HEIGHT wind_speed_units : Z)
         (m : Wind.metar) (v : Wind.fields) (s : surface),
    Wind.report m = Some v ->
    exists before after : list draw_op,
      drawn (Wind.layout_wind textsize float cos_deg sin_deg update_text
               SCREEN_WIDTH SCREEN_HEIGHT wind_speed_units m) s
      = before ++ Wind.runway_outline SCREEN_WIDTH :: after
      /\ lines before = []
      /\ polygons after = [].
Proof.
  intros textsize float cos_deg sin_deg update_text W H units m v s Hv.
  exists (WindOrder.before_runway textsize float cos_deg sin_deg W units m v),
         (WindOrder.after_runway textsize update_text W H).
  split; [apply WindOrder.drawn_around_runway; exact Hv |].
  split; [apply WindOrder.lines_before_runway | apply WindOrder.polygons_after_runway].
Qed.

Lemma runway_over_arrow_under_marks_witness :
  exists before after : list draw_op,
    drawn (Sample.layout_wind (Wind.Decodes Sample.variable_wind)) blank
    = before ++ Wind.runway_outline 400 :: after
    /\ lines before = []
    /\ polygons after = [].
Proof.
  apply (runway_over_arrow_under_marks Sample.textsize Sample.float Sample.cos_deg
           Sample.sin_deg Sample.update_text 400 300 2
           (Wind.Decodes Sample.variable_wind) (Wind.of_decoded Sample.variable_wind)
           blank eq_refl).
Defined.
